(** * Malaya [malaya/function/__init__.py]: the model cache manager and [add_neutral]

    A shallow embedding of [download_file], [check_available], [check_file]
    and [add_neutral], and what holds of them.

    The cache manager talks to the disk and to a remote store, so its
    functions are computations in a small state-and-exception monad over a
    [World]: the files and directories on disk, and the chronological trace
    of the effects performed so far (what was printed, requested, created,
    written, deleted).  An exception leaves the world as it was when it was
    raised.  Conventions:
    - a path is the string the program uses; two spellings of one location
      are two paths, and there are no symbolic links;
    - a manifest is a Python dict that is iterated, hence the list of its
      items in insertion order; [s3_file] is only looked up, hence a map;
    - the remote store is a function from URLs to replies;
    - the progress bar and the sizes it shows are left out.

    [add_neutral] works on numpy arrays: they live on a heap, so that
    "a new array" and "the argument is left alone" can be said, and their
    entries are rationals, for exact arithmetic. *)

From Stdlib Require Import Ascii String QArith Qcanon.
From stdpp Require Import numbers gmap strings list fin_maps.

Local Open Scope string_scope.
Local Open Scope list_scope.

(** ** Python string operations used by the module *)

Module Str.

Definition slash : ascii := "/"%char.

(** [hay.startswith(needle)] *)
Fixpoint starts_with (needle hay : string) : bool :=
  match needle, hay with
  | "", _ => true
  | String a n, String b h => bool_decide (a = b) && starts_with n h
  | String _ _, "" => false
  end.

(** [needle in hay] on Python [str]: substring test. *)
Fixpoint str_in (needle hay : string) : bool :=
  starts_with needle hay ||
  match hay with
  | "" => false
  | String _ t => str_in needle t
  end.

(** [s.split(sep)] for a one-character separator. *)
Fixpoint split (sep : ascii) (s : string) : list string :=
  match s with
  | "" => [""]
  | String c t =>
      if bool_decide (c = sep) then "" :: split sep t
      else match split sep t with
           | [] => [String c ""]
           | h :: r => String c h :: r
           end
  end.

(** [sep.join(l)] *)
Fixpoint join (sep : string) (l : list string) : string :=
  match l with
  | [] => ""
  | [x] => x
  | x :: r => x +:+ sep +:+ join sep r
  end.

(** [s[: s.rfind(c) + 1]]: the part of [s] up to and including the last [c]. *)
Fixpoint upto_last (c : ascii) (s : string) : string :=
  match s with
  | "" => ""
  | String a t =>
      match upto_last c t with
      | "" => if bool_decide (a = c) then String a "" else ""
      | h => String a h
      end
  end.

(** [s.rstrip(c)] *)
Fixpoint rstrip (c : ascii) (s : string) : string :=
  match s with
  | "" => ""
  | String a t =>
      match rstrip c t with
      | "" => if bool_decide (a = c) then "" else String a ""
      | t' => String a t'
      end
  end.

(** [s == c * len(s)] *)
Fixpoint all_char (c : ascii) (s : string) : bool :=
  match s with
  | "" => true
  | String a t => bool_decide (a = c) && all_char c t
  end.

Definition nonempty (s : string) : bool :=
  match s with "" => false | _ => true end.

(** [os.path.dirname] (posixpath):
    [head = p[:p.rfind('/')+1]];
    [if head and head != '/'*len(head): head = head.rstrip('/')]. *)
Definition dirname (p : string) : string :=
  let head := upto_last slash p in
  if nonempty head && negb (all_char slash head) then rstrip slash head
  else head.

End Str.

(** ** The file system, the remote store and the effect trace *)

(** A path names a regular file (with its content) or a directory.  Paths are
    compared as written: no normalisation, no symbolic links; the root and the
    current directory are always present and are not entries of the map. *)
Inductive node :=
| File (content : string)
| Dir.

Global Instance node_eq_dec : EqDecision node.
Proof. solve_decision. Defined.

(** [open(..., 'w')] against [open(..., 'wb')] *)
Inductive mode := Text | Binary.

Global Instance mode_eq_dec : EqDecision mode.
Proof. solve_decision. Defined.

(** What the module does to the outside, in the order it does it. *)
Inductive event :=
| EPrint (msg : string)                 (* print(msg) *)
| EGet (url : string)                   (* requests.get(url, stream = True) *)
| EMakedirs (d : string)                (* os.makedirs(d, exist_ok = True) *)
| EOpen (m : mode) (p : string)         (* open(p, 'w') / open(p, 'wb'): creates or truncates p *)
| EWrite (p : string) (data : string)   (* f.write(data) *)
| ERmtree (d : string).                 (* _delete_folder(d) *)

Global Instance event_eq_dec : EqDecision event.
Proof. solve_decision. Defined.

Record World := mkWorld {
  fs : gmap string node;
  trace : list event
}.

(** The answer of the remote store to a GET: the [content-length] header when
    there is one, the chunks [iter_content] yields, and whether the stream
    ended normally ([intact = false]: [iter_content] raised after the last of
    [chunks]). *)
Record reply := mkReply {
  content_length : option nat;
  chunks : list string;
  intact : bool
}.

Inductive exn :=
| KeyError (k : string)
| RequestError (url : string)   (* raised by requests: connection or stream error *)
| OSError (p : string)          (* raised by os.makedirs or open *)
| ZeroDivisionError
| Exception (msg : string).     (* raise Exception(msg) *)

Global Instance exn_eq_dec : EqDecision exn.
Proof. solve_decision. Defined.

Inductive result (A : Type) :=
| Ok (a : A)
| Raise (e : exn).
Arguments Ok {A} a.
Arguments Raise {A} e.

(** State and exceptions: the state survives a raise. *)
Definition ST (S A : Type) : Type := S -> result A * S.

Definition ret {S A} (a : A) : ST S A := fun w => (Ok a, w).
Definition raise {S A} (e : exn) : ST S A := fun w => (Raise e, w).
Definition bind {S A B} (m : ST S A) (k : A -> ST S B) : ST S B :=
  fun w => match m w with
           | (Ok a, w') => k a w'
           | (Raise e, w') => (Raise e, w')
           end.

Notation "x <- m ; k" := (bind m (fun x : _ => k))
  (at level 20, m at level 100, k at level 200,
   format "'[v' x  <-  m ; '/' k ']'").
Notation "m ;; k" := (bind m (fun _ => k))
  (at level 100, k at level 200, right associativity,
   format "'[v' m ;; '/' k ']'").

(** The cache manager runs over the world. *)
Abbreviation M := (ST World).

Definition emit (e : event) : M unit :=
  fun w => (Ok tt, mkWorld (fs w) (trace w ++ [e])).

Definition set_fs (f : gmap string node -> gmap string node) : M unit :=
  fun w => (Ok tt, mkWorld (f (fs w)) (trace w)).

Definition get_fs : M (gmap string node) := fun w => (Ok (fs w), w).

(** *** Reading the disk *)

Definition is_file (m : gmap string node) (p : string) : bool :=
  match m !! p with Some (File _) => true | _ => false end.

Definition is_dir (m : gmap string node) (p : string) : bool :=
  match m !! p with Some Dir => true | _ => false end.

Definition path_exists (m : gmap string node) (p : string) : bool :=
  match m !! p with Some _ => true | None => false end.

(** The content of the regular file at [p], if there is one. *)
Definition file_at (m : gmap string node) (p : string) : option string :=
  match m !! p with Some (File c) => Some c | _ => None end.

(** [os.path.isfile(p)] *)
Definition isfile (p : string) : M bool := m <- get_fs; ret (is_file m p).

(** [os.path.exists(p)] *)
Definition exists_ (p : string) : M bool := m <- get_fs; ret (path_exists m p).

(** [print(msg)] *)
Definition print (msg : string) : M unit := emit (EPrint msg).

(** *** Writing the disk *)

(** The directories [os.makedirs(d)] walks through: every non-empty prefix of
    [d] that stops right before a ['/'], then [d] itself. *)
Fixpoint ancestors_go (pre s : string) : list string :=
  match s with
  | "" => [pre]
  | String c t =>
      (if bool_decide (c = Str.slash) && Str.nonempty pre then [pre] else [])
      ++ ancestors_go (pre +:+ String c "") t
  end.

Definition ancestors (d : string) : list string :=
  if Str.nonempty d then ancestors_go "" d else [].

Definition mkdirs (ds : list string) (m : gmap string node) : gmap string node :=
  foldr (fun q acc => <[q := Dir]> acc) m ds.

(** [os.makedirs(d, exist_ok = True)]: raises on the empty name and when [d]
    or one of the directories above it is a regular file; otherwise [d] and
    every directory above it exist afterwards. *)
Definition makedirs (d : string) : M unit :=
  emit (EMakedirs d);;
  m <- get_fs;
  if negb (Str.nonempty d) then raise (OSError d)
  else if existsb (is_file m) (ancestors d) then raise (OSError d)
  else set_fs (mkdirs (ancestors d)).

(** The directory that holds [p] is there: the current directory, the root,
    or a directory of the map. *)
Definition parent_ok (m : gmap string node) (p : string) : bool :=
  let d := Str.dirname p in
  negb (Str.nonempty d) || Str.all_char Str.slash d || is_dir m d.

(** [open(p, 'w')] and [open(p, 'wb')]: [p] becomes an empty regular file;
    raises when [p] is a directory or the directory holding it is missing. *)
Definition open_w (md : mode) (p : string) : M unit :=
  emit (EOpen md p);;
  m <- get_fs;
  if is_dir m p then raise (OSError p)
  else if negb (parent_ok m p) then raise (OSError p)
  else set_fs (insert p (File "")).

(** [f.write(data)] on the file opened at [p]: appends. *)
Definition write (p data : string) : M unit :=
  emit (EWrite p data);;
  set_fs (fun m => <[p := File (default "" (file_at m p) +:+ data)]> m).

(** [open(p).read()] on a path known to be a regular file. *)
Definition read_text (p : string) : M string :=
  m <- get_fs;
  match file_at m p with
  | Some c => ret c
  | None => raise (OSError p)
  end.

(** [p] is the directory [d] or lies below it; the empty name is no
    directory. *)
Definition under (d p : string) : bool :=
  Str.nonempty d && (bool_decide (p = d) || Str.starts_with (d +:+ "/") p).

(** The disk without [d] and everything below it. *)
Definition rmtree (d : string) (m : gmap string node) : gmap string node :=
  filter (fun kv => under d kv.1 = false) m.

(** Modelled from the spec: [_delete_folder] is imported from the package's
    top-level module, which is not part of the sources at hand; the spec has
    it "recursively delete the entire cache directory". *)
Definition _delete_folder (d : string) : M unit :=
  emit (ERmtree d);;
  set_fs (rmtree d).

(** *** The remote store *)

(** [d[k]] on a Python dict used as a lookup table. *)
Definition getitem (d : gmap string string) (k : string) : M string :=
  match d !! k with
  | Some v => ret v
  | None => raise (KeyError k)
  end.

(** A manifest is a dict that is iterated: its items in insertion order. *)
Fixpoint assoc (d : list (string * string)) (k : string) : option string :=
  match d with
  | [] => None
  | (k', v) :: r => if bool_decide (k' = k) then Some v else assoc r k
  end.

Definition getitem_l (d : list (string * string)) (k : string) : M string :=
  match assoc d k with
  | Some v => ret v
  | None => raise (KeyError k)
  end.

Section CacheManager.

(** What the remote store answers to each URL, the same throughout a run;
    [None]: [requests.get] raises. *)
Variable remote : string -> option reply.

(** [requests.get(url, stream = True)] *)
Definition requests_get (url : string) : M reply :=
  emit (EGet url);;
  match remote url with
  | Some r => ret r
  | None => raise (RequestError url)
  end.

Definition base_url : string := "https://f000.backblazeb2.com/file/malaya-model/".

(** [for data in ...: f.write(data)], lines 39-45. *)
Fixpoint write_chunks (filename : string) (data : list string) : M unit :=
  match data with
  | [] => ret tt
  | c :: rest => write filename c;; write_chunks filename rest
  end.

(** [download_file(url, filename)], lines 28-45. The progress bar is
    presentation only. *)
Definition download_file (url filename : string) : M unit :=
  r <- (if Str.str_in "http" url then requests_get url
       else requests_get (base_url +:+ url));
  _ <- match content_length r with
      | Some n => ret n
      | None => raise (KeyError "content-length")
      end;
  makedirs (Str.dirname filename);;
  open_w Binary filename;;
  write_chunks filename (chunks r);;
  if intact r then ret tt else raise (RequestError url).

(** [check_available(file)], lines 68-74. *)
Fixpoint check_available (file : list (string * string)) : M bool :=
  match file with
  | [] => ret true
  | (key, item) :: rest =>
      if Str.str_in "version" key then check_available rest
      else
        b <- isfile item;
        if negb b then ret false else check_available rest
  end.

(** The loop of lines 90-93: [download = True] as soon as some value of the
    manifest is not an existing path. *)
Fixpoint any_missing (file : list (string * string)) : M bool :=
  match file with
  | [] => ret false
  | (key, item) :: rest =>
      b <- exists_ item;
      if negb b then ret true else any_missing rest
  end.

(** The loop of lines 98-103. *)
Fixpoint download_missing (base_location : string) (s3_file : gmap string string)
    (file : list (string * string)) : M unit :=
  match file with
  | [] => ret tt
  | (key, item) :: rest =>
      if Str.str_in "version" key then download_missing base_location s3_file rest
      else
        b <- isfile item;
        (if negb b then
           print ("downloading frozen " +:+ base_location +:+ " " +:+ key);;
           url <- getitem s3_file key;
           download_file url item
         else ret tt);;
        download_missing base_location s3_file rest
  end.

(** Lines 82-95: decide whether to download. *)
Definition stale_or_missing (file : list (string * string))
    (base_location version : string) : M bool :=
  isf <- isfile version;
  if isf then
    v <- getitem_l file "version";
    content <- read_text version;
    if negb (Str.str_in v content) then
      print ("Found old version of " +:+ base_location +:+ ", deleting..");;
      _delete_folder base_location;;
      print "Done.";;
      ret true
    else any_missing file
  else ret true.

(** Lines 104-105: [with open(version, 'w') as fopen: fopen.write(file['version'])]. *)
Definition write_marker (file : list (string * string)) (version : string) : M unit :=
  open_w Text version;;
  v <- getitem_l file "version";
  write version v.

(** [check_file(file, s3_file, validate)], lines 77-111. *)
Definition check_file (file : list (string * string))
    (s3_file : gmap string string) (validate : bool) : M unit :=
  if validate then
    model <- getitem_l file "model";
    let base_location := Str.dirname model in
    let version := base_location +:+ "/version" in
    download <- stale_or_missing file base_location version;
    if download then
      download_missing base_location s3_file file;;
      write_marker file version
    else ret tt
  else
    ok <- check_available file;
    if negb ok then
      model <- getitem_l file "model";
      let path := Str.join "/" (removelast (Str.split Str.slash model)) in
      raise (Exception (path +:+ " is not available, please `validate = True`"))
    else ret tt.

End CacheManager.

(** ** Reading a run *)

(** The URLs requested, in order. *)
Definition gets (evs : list event) : list string :=
  omap (fun e => match e with EGet u => Some u | _ => None end) evs.

(** The only file the module opens in text mode is the Version Marker
    (line 104); [download_file] opens in binary mode. *)
Definition is_text_open (e : event) : bool :=
  match e with EOpen Text _ => true | _ => false end.

(** The events of one [download_file url filename] after its GET. *)
Definition download_steps (filename : string) (data : list string) : list event :=
  EMakedirs (Str.dirname filename) :: EOpen Binary filename
  :: map (EWrite filename) data.

(** The URL [download_file] requests for a locator. *)
Definition resolve (url : string) : string :=
  if Str.str_in "http" url then url else base_url +:+ url.

(** A manifest entry the download loop has to fetch on a disk [m]: its key
    does not contain "version" and its path is not a regular file. *)
Definition needs_fetch (m : gmap string node) (kv : string * string) : bool :=
  negb (Str.str_in "version" kv.1) && negb (is_file m kv.2).

(** The first entry for each path, paths of [seen] left out. *)
Fixpoint first_per_path (seen : list string) (l : list (string * string))
    : list (string * string) :=
  match l with
  | [] => []
  | (k, p) :: r =>
      if bool_decide (p ∈ seen) then first_per_path seen r
      else (k, p) :: first_per_path (p :: seen) r
  end.

(** The entries a complete run of the download loop fetches on disk [m], in
    order: those that need fetching, once per path. *)
Definition pending (m : gmap string node) (file : list (string * string))
    : list (string * string) :=
  first_per_path [] (List.filter (needs_fetch m) file).

(** [u] is the URL requested for the entry [kv]. *)
Definition fetched_from (s3_file : gmap string string)
    (kv : string * string) (u : string) : Prop :=
  exists loc, s3_file !! kv.1 = Some loc /\ u = resolve loc.

(** Some entry whose key does not contain "version" is not a regular file. *)
Definition some_absent (m : gmap string node) (file : list (string * string)) : Prop :=
  exists key item,
    (key, item) ∈ file /\ Str.str_in "version" key = false /\ is_file m item = false.

(** The run of [check_file] in which the download for one entry raises [e]:
    the entries before it went through (state [w1]), the entry is due, and
    [download_file] on it ends in [w2] raising [e]. *)
Definition download_raises (remote : string -> option reply)
    (base_location : string) (s3_file : gmap string string)
    (file : list (string * string)) (w0 : World) (e : exn) (w2 : World) : Prop :=
  exists pre key item post w1 url,
    file = pre ++ (key, item) :: post /\
    download_missing remote base_location s3_file pre w0 = (Ok tt, w1) /\
    Str.str_in "version" key = false /\
    is_file (fs w1) item = false /\
    s3_file !! key = Some url /\
    (print ("downloading frozen " +:+ base_location +:+ " " +:+ key);;
     download_file remote url item) w1 = (Raise e, w2).

(** ** [add_neutral]: arrays on a heap, entries in exact arithmetic *)

Module Numpy.

(** A 2-D array of shape [(length rows, ncols)]. *)
Record ndarray := mkArray {
  ncols : nat;
  rows : list (list Qc)
}.

Definition well_shaped (a : ndarray) : Prop :=
  Forall (fun r => length r = ncols a) (rows a).

(** Arrays live on a heap; a Python variable holds the index of its array.
    Every numpy operation below leaves its operands alone and allocates its
    result. *)
Abbreviation NP := (ST (list ndarray)).

Definition alloc (a : ndarray) : NP nat :=
  fun h => (Ok (length h), h ++ [a]).

(** A reference held by the caller always points into the heap; the second
    branch is there for totality only. *)
Definition load (x : nat) : NP ndarray :=
  fun h => match h !! x with
           | Some a => (Ok a, h)
           | None => (Raise (Exception "invalid reference"), h)
           end.

Definition map_entries (f : Qc -> Qc) (a : ndarray) : ndarray :=
  mkArray (ncols a) (map (map f) (rows a)).

(** [x.copy()] *)
Definition copy (x : nat) : NP nat := a <- load x; alloc a.

(** [x.shape[1]] *)
Definition shape1 (x : nat) : NP nat := a <- load x; ret (ncols a).

(** [x - c], [c * x], [x / c] and [c - x] for a scalar [c] *)
Definition sub_scalar (x : nat) (c : Qc) : NP nat :=
  a <- load x; alloc (map_entries (fun v => v - c)%Qc a).
Definition scalar_mul (c : Qc) (x : nat) : NP nat :=
  a <- load x; alloc (map_entries (fun v => c * v)%Qc a).
Definition div_scalar (x : nat) (c : Qc) : NP nat :=
  a <- load x; alloc (map_entries (fun v => v / c)%Qc a).
Definition scalar_sub (c : Qc) (x : nat) : NP nat :=
  a <- load x; alloc (map_entries (fun v => c - v)%Qc a).

Definition Qcmax (u v : Qc) : Qc := if decide (u ≤ v)%Qc then v else u.

(** [np.maximum(x, y)] on two arrays of one shape *)
Definition maximum (x y : nat) : NP nat :=
  a <- load x; b <- load y;
  alloc (mkArray (ncols a) (zip_with (zip_with Qcmax) (rows a) (rows b))).

Definition sum (r : list Qc) : Qc := foldr Qcplus 0%Qc r.

(** [x.sum(axis = 1, keepdims = True)] *)
Definition sum_axis1 (x : nat) : NP nat :=
  a <- load x; alloc (mkArray 1 (map (fun r => [sum r]) (rows a))).

(** [np.concatenate([x, y], axis = 1)] on two arrays with as many rows *)
Definition concatenate1 (x y : nat) : NP nat :=
  a <- load x; b <- load y;
  alloc (mkArray (ncols a + ncols b) (zip_with app (rows a) (rows b))).

(** [1 / n] on Python ints *)
Definition one_over (n : nat) : NP Qc :=
  match n with
  | O => raise ZeroDivisionError
  | S _ => ret (1 / Qc_of_Z (Z.of_nat n))%Qc
  end.

(** [add_neutral(x, alpha)], lines 194-200. *)
Definition add_neutral (x : nat) (alpha : Qc) : NP nat :=
  x <- copy x;
  n <- shape1 x;
  divide <- one_over n;
  t1 <- sub_scalar x divide;
  t2 <- scalar_mul alpha x;
  x_minus <- maximum t1 t2;
  x_divide <- div_scalar x_minus divide;
  sum_axis <- sum_axis1 x_divide;
  t3 <- scalar_sub 1%Qc sum_axis;
  concatenate1 x_divide t3.

(** The default [alpha = 1e-2]. *)
Definition alpha_default : Qc := Q2Qc (1 # 100).

End Numpy.

(** ** The scenarios of the spec as data *)

Module Scenario.

(** [{model: "a/m.pb", version: "1.0"}] and its remote source map. *)
Definition manifest : list (string * string) :=
  [("model", "a/m.pb"); ("version", "1.0")].

Definition s3_file : gmap string string := {[ "model" := "v1/m.pb" ]}.

(** A manifest with a second file, kept outside the cache directory. *)
Definition manifest2 : list (string * string) :=
  [("model", "a/m.pb"); ("vocab", "b/v.txt"); ("version", "1.0")].

Definition s3_file2 : gmap string string :=
  {[ "model" := "v1/m.pb"; "vocab" := "v1/v.txt" ]}.

(** A manifest with a second entry whose key contains "version" . *)
Definition manifest3 : list (string * string) :=
  [("model", "a/m.pb"); ("model_version", "a/absent"); ("version", "1.0")].

(** A store that serves every URL, and one that cannot be reached. *)
Definition serving (u : string) : option reply :=
  Some (mkReply (Some 7) ["wei"; "ghts"] true).

Definition unreachable (u : string) : option reply := None.

(** The cache directory [a] holding the model and a marker with [content]. *)
Definition cached (content : string) : gmap string node :=
  list_to_map [("a", Dir); ("a/m.pb", File "old"); ("a/version", File content)].

(** The model is on disk, the marker is not. *)
Definition unmarked : gmap string node :=
  list_to_map [("a", Dir); ("a/m.pb", File "old")].

(** As [cached], with the second file of [manifest2] in its own directory. *)
Definition cached2 (content : string) : gmap string node :=
  list_to_map [("a", Dir); ("a/m.pb", File "old"); ("a/version", File content);
               ("b", Dir); ("b/v.txt", File "words")].

(** As [cached], run from a directory that has an entry named like the
    expected version. *)
Definition cached_beside (content : string) : gmap string node :=
  list_to_map [("a", Dir); ("a/m.pb", File "old"); ("a/version", File content);
               ("1.0", Dir)].

Definition start (m : gmap string node) : World := mkWorld m [].

End Scenario.

(** ** Further vocabulary for runs *)

(** What the chunks of a stream amount to once written one after the other. *)
Definition joined (data : list string) : string := foldr String.append "" data.

(** A deletion of a directory tree. *)
Definition is_rmtree (e : event) : bool :=
  match e with ERmtree _ => true | _ => false end.

(** ** [add_neutral], entry by entry *)

(** What lines 196-198 make of an entry [v] of an array with [n] columns:
    [max(v - 1/n, alpha * v) / (1/n)]. *)
Definition neutral_entry (n : nat) (alpha v : Qc) : Qc :=
  (Numpy.Qcmax (v - 1 / Qc_of_Z (Z.of_nat n)) (alpha * v)
   / (1 / Qc_of_Z (Z.of_nat n)))%Qc.

(** A row of the result: the entries rescaled, then what is missing to 1. *)
Definition neutral_row (n : nat) (alpha : Qc) (r : list Qc) : list Qc :=
  map (neutral_entry n alpha) r
  ++ [(1 - Numpy.sum (map (neutral_entry n alpha) r))%Qc].


(** ** [load_graph] *)

(** [s.split(sep)] for a separator of any positive length: the pieces
    between the occurrences of [sep], found from the left, an occurrence
    starting only after the end of the one before.  [skip] counts the
    characters of an occurrence still to pass over. *)
Fixpoint split_on_go (sep : string) (skip : nat) (s : string) : list string :=
  match s with
  | "" => [""]
  | String c t =>
      match skip with
      | S k => split_on_go sep k t
      | O =>
          if Str.starts_with sep s
          then "" :: split_on_go sep (String.length sep - 1) t
          else match split_on_go sep 0 t with
               | [] => [String c ""]
               | h :: r => String c h :: r
               end
      end
  end.

Definition split_on (sep s : string) : list string := split_on_go sep 0 s.

(** [load_graph] can raise what the cache manager never does. *)
Inductive graph_exn :=
| IndexError                (* a list index out of range *)
| Base (e : exn).

Section LoadGraph.

(** The [try] block of lines 53-59 is TensorFlow's: it reads and parses the
    file and imports the graph.  All that [load_graph] itself depends on is
    whether it came through; [None] stands for any exception raised in it,
    which the bare [except] of line 60 catches. *)
Variable Graph : Type.
Variable import_graph_def : string -> option Graph.

(** [load_graph(frozen_graph_filename)], lines 52-65. *)
Definition load_graph (frozen_graph_filename : string) : Graph + graph_exn :=
  match import_graph_def frozen_graph_filename with
  | Some graph => inl graph
  | None =>
      match split_on "Malaya/" frozen_graph_filename !! 1 with
      | None => inr IndexError
      | Some path =>
          let path := Str.join "/" (removelast (Str.split Str.slash path)) in
          inr (Base (Exception
                 ("model corrupted due to some reasons, please run malaya.clear_cache('"
                  +:+ path +:+ "') and try again")))
      end
  end.

End LoadGraph.

(** * Properties *)

(** ** The embedding on the examples of the spec *)

Example dirname_ex1 : Str.dirname "a/m.pb" = "a". Proof. reflexivity. Qed.
Example dirname_ex2 : Str.dirname "/m.pb" = "/". Proof. reflexivity. Qed.
Example dirname_ex3 : Str.dirname "m.pb" = "". Proof. reflexivity. Qed.
Example dirname_ex4 : Str.dirname "/home/u/Malaya/x/model.pb" = "/home/u/Malaya/x".
Proof. reflexivity. Qed.
Example split_ex1 : Str.split Str.slash "a/b//c" = ["a"; "b"; ""; "c"].
Proof. reflexivity. Qed.
Example join_ex1 :
  Str.join "/" (removelast (Str.split Str.slash "/m.pb")) = "".
Proof. reflexivity. Qed.
Example str_in_ex1 : Str.str_in "version" "model_version" = true.
Proof. reflexivity. Qed.
Example str_in_ex2 : Str.str_in "1.0" "0.9" = false.
Proof. reflexivity. Qed.

(** No marker: one download of ["a/m.pb"], marker written with "1.0". *)
Example scenario_no_marker :
  check_file Scenario.serving Scenario.manifest Scenario.s3_file true
    (Scenario.start ∅)
  = (Ok tt,
     mkWorld (list_to_map [("a", Dir); ("a/m.pb", File "weights");
                           ("a/version", File "1.0")])
       [EPrint "downloading frozen a model";
        EGet "https://f000.backblazeb2.com/file/malaya-model/v1/m.pb";
        EMakedirs "a"; EOpen Binary "a/m.pb"; EWrite "a/m.pb" "wei"; EWrite "a/m.pb" "ghts";
        EOpen Text "a/version"; EWrite "a/version" "1.0"]).
Proof. vm_compute. reflexivity. Qed.

(** Marker "0.9", expected "1.0": directory [a] deleted, the model fetched
    again, the marker rewritten. *)
Example scenario_stale_marker :
  check_file Scenario.serving Scenario.manifest Scenario.s3_file true
    (Scenario.start (Scenario.cached "0.9"))
  = (Ok tt,
     mkWorld (list_to_map [("a", Dir); ("a/m.pb", File "weights");
                           ("a/version", File "1.0")])
       [EPrint "Found old version of a, deleting.."; ERmtree "a"; EPrint "Done.";
        EPrint "downloading frozen a model";
        EGet "https://f000.backblazeb2.com/file/malaya-model/v1/m.pb";
        EMakedirs "a"; EOpen Binary "a/m.pb"; EWrite "a/m.pb" "wei"; EWrite "a/m.pb" "ghts";
        EOpen Text "a/version"; EWrite "a/version" "1.0"]).
Proof. vm_compute. reflexivity. Qed.

(** A file name without a directory: [os.makedirs('')] raises after the GET. *)
Example download_file_bare_name :
  download_file Scenario.serving "v1/m.pb" "m.pb" (Scenario.start ∅)
  = (Raise (OSError ""),
     mkWorld ∅ [EGet "https://f000.backblazeb2.com/file/malaya-model/v1/m.pb";
                EMakedirs ""]).
Proof. vm_compute. reflexivity. Qed.

(** ** Strings *)

Lemma starts_with_app (a r : string) : Str.starts_with a (a +:+ r) = true.
Proof.
  induction a as [|c a IH]; simpl; [done|].
  by rewrite bool_decide_eq_true_2.
Qed.

Lemma starts_with_inv (a b : string) :
  Str.starts_with a b = true -> exists r, b = a +:+ r.
Proof.
  revert b. induction a as [|c a IH]; intros b H; simpl in *.
  - by exists b.
  - destruct b as [|d b]; [done|].
    apply andb_true_iff in H as [Hc Hr].
    apply bool_decide_eq_true in Hc as ->.
    destruct (IH _ Hr) as [r ->]. by exists r.
Qed.

(** [str_in] is the substring test. *)
Lemma str_in_spec (a b : string) :
  Str.str_in a b = true <-> exists l r, b = l +:+ a +:+ r.
Proof.
  split.
  - induction b as [|c b IH]; simpl; intros H.
    + rewrite orb_false_r in H. apply starts_with_inv in H as [r ->].
      by exists "", r.
    + apply orb_true_iff in H as [H|H].
      * apply starts_with_inv in H as [r ->]. by exists "", r.
      * destruct (IH H) as (l & r & ->). by exists (String c l), r.
  - intros (l & r & ->). induction l as [|c l IH]; simpl.
    + destruct (a +:+ r) eqn:E; simpl; rewrite <- E, starts_with_app; done.
    + rewrite IH. apply orb_true_r.
Qed.

Lemma str_in_refl (v : string) : Str.str_in v v = true.
Proof.
  apply str_in_spec. exists "", "". change (v = v +:+ "").
  induction v as [|c v IH]; [done|].
  change (String c v = String c (v +:+ "")). by f_equal.
Qed.

Lemma string_length_app (a b : string) :
  String.length (a +:+ b) = String.length a + String.length b.
Proof. induction a as [|c a IH]; simpl; [done|]. by rewrite IH. Qed.

Lemma base_url_changes (url : string) : base_url +:+ url <> url.
Proof.
  intros H. apply (f_equal String.length) in H.
  rewrite string_length_app in H. simpl in H. lia.
Qed.

(** ** The monad *)

Lemma bind_ok {S A B} (m : ST S A) (k : A -> ST S B) w a w' :
  m w = (Ok a, w') -> bind m k w = k a w'.
Proof. unfold bind. by intros ->. Qed.

Lemma bind_raise {S A B} (m : ST S A) (k : A -> ST S B) w e w' :
  m w = (Raise e, w') -> bind m k w = (Raise e, w').
Proof. unfold bind. by intros ->. Qed.

Lemma bind_inv {S A B} (m : ST S A) (k : A -> ST S B) w r w2 :
  bind m k w = (r, w2) ->
  (exists a w1, m w = (Ok a, w1) /\ k a w1 = (r, w2)) \/
  (exists e, m w = (Raise e, w2) /\ r = Raise e).
Proof.
  unfold bind. destruct (m w) as [[a|e] w1]; intros H.
  - left. by exists a, w1.
  - right. exists e. by inversion H.
Qed.

Lemma isfile_run p w : isfile p w = (Ok (is_file (fs w) p), w).
Proof. done. Qed.

Lemma exists_run p w : exists_ p w = (Ok (path_exists (fs w) p), w).
Proof. done. Qed.

(** ** [check_available] *)

Lemma check_available_run (file : list (string * string)) (w : World) :
  check_available file w =
  (Ok (forallb (fun kv => Str.str_in "version" kv.1 || is_file (fs w) kv.2) file), w).
Proof.
  induction file as [|[key item] rest IH]; simpl; [done|].
  destruct (Str.str_in "version" key); simpl; [done|].
  rewrite (bind_ok _ _ _ _ _ (isfile_run item w)).
  destruct (is_file (fs w) item); simpl; [done|done].
Qed.

Lemma forallb_false_absent (m : gmap string node) (file : list (string * string)) :
  forallb (fun kv => Str.str_in "version" kv.1 || is_file m kv.2) file = false
  <-> some_absent m file.
Proof.
  unfold some_absent. induction file as [|[key item] rest IH]; simpl.
  - split; [done|]. intros (k & i & H & _). by apply elem_of_nil in H.
  - rewrite andb_false_iff, orb_false_iff, IH. split.
    + intros [[Hk Hf]|(k & i & Hin & Hk & Hf)].
      * exists key, item. split; [left|done].
      * exists k, i. split; [by right|done].
    + intros (k & i & Hin & Hk & Hf).
      apply elem_of_cons in Hin as [Heq|Hin].
      * inversion Heq; subst. by left.
      * right. by exists k, i.
Qed.

(** C7. [check_available] returns [False] exactly when some entry whose key
    does not contain "version" is not a regular file on disk; it returns
    [True] when the manifest has no such key at all; and it leaves the world
    (disk and trace) as it found it. *)
Theorem check_available_spec (file : list (string * string)) (w : World) :
  exists b,
    check_available file w = (Ok b, w) /\
    (b = false <-> some_absent (fs w) file) /\
    ((forall key item, (key, item) ∈ file -> Str.str_in "version" key = true) ->
     b = true).
Proof.
  eexists. split; [apply check_available_run|]. split.
  - apply forallb_false_absent.
  - intros Hall. apply not_false_iff_true. intros Hf.
    apply forallb_false_absent in Hf as (k & i & Hin & Hk & _).
    rewrite (Hall _ _ Hin) in Hk. done.
Qed.

(** ** [check_file] without validation *)

Local Arguments String.append : simpl nomatch.

Lemma split_nonempty (s : string) : Str.split Str.slash s <> [].
Proof.
  destruct s as [|c s]; simpl; [done|].
  case_bool_decide; [done|]. by destruct (Str.split Str.slash s).
Qed.

Lemma split_app (x y : string) :
  Str.split Str.slash (x +:+ String Str.slash y)
  = Str.split Str.slash x ++ Str.split Str.slash y.
Proof.
  induction x as [|c x IH]; simpl.
  - done.
  - rewrite IH. case_bool_decide; [done|].
    pose proof (split_nonempty x). by destruct (Str.split Str.slash x).
Qed.

Lemma no_slash_cons (c : ascii) (t : string) :
  Str.str_in "/" (String c t) = false -> c <> Str.slash /\ Str.str_in "/" t = false.
Proof.
  simpl. intros H. apply orb_false_iff in H as [H1 H2].
  rewrite andb_true_r in H1. apply bool_decide_eq_false in H1.
  split; [|done]. intros ->. by apply H1.
Qed.

Lemma split_no_slash (s : string) :
  Str.str_in "/" s = false -> Str.split Str.slash s = [s].
Proof.
  induction s as [|c s IH]; [done|].
  intros [Hc Hs]%no_slash_cons. simpl.
  rewrite bool_decide_eq_false_2 by done. by rewrite IH.
Qed.

Lemma join_split (s : string) : Str.join "/" (Str.split Str.slash s) = s.
Proof.
  induction s as [|c s IH]; [done|]. simpl.
  pose proof (split_nonempty s) as Hne.
  case_bool_decide as Hc.
  - subst c. destruct (Str.split Str.slash s) as [|h r]; [done|].
    change (Str.join "/" ("" :: h :: r)) with (String Str.slash (Str.join "/" (h :: r))).
    by rewrite IH.
  - destruct (Str.split Str.slash s) as [|h r]; [done|].
    destruct r as [|h' r]; simpl in *; by rewrite <- IH.
Qed.

(** The path the error message names is the model path without its last
    component. *)
Lemma named_dir_app (d name : string) :
  Str.str_in "/" name = false ->
  Str.join "/" (removelast (Str.split Str.slash (d +:+ "/" +:+ name))) = d.
Proof.
  intros Hn. change (d +:+ "/" +:+ name) with (d +:+ String Str.slash name).
  rewrite split_app, (split_no_slash name Hn), removelast_last.
  apply join_split.
Qed.

Lemma upto_last_no_slash (s : string) :
  Str.str_in "/" s = false -> Str.upto_last Str.slash s = "".
Proof.
  induction s as [|c s IH]; [done|].
  intros [Hc Hs]%no_slash_cons. simpl. rewrite (IH Hs).
  by rewrite bool_decide_eq_false_2.
Qed.

Lemma upto_last_app (x z : string) :
  Str.upto_last Str.slash z <> "" ->
  Str.upto_last Str.slash (x +:+ z) = x +:+ Str.upto_last Str.slash z.
Proof.
  intros Hz. induction x as [|a x IH]; [done|]. simpl. rewrite IH.
  destruct (x +:+ Str.upto_last Str.slash z) eqn:E; [|done].
  destruct x; simpl in E; [done|discriminate].
Qed.

Lemma all_char_rstrip (c : ascii) (s : string) :
  Str.all_char c s = true -> Str.rstrip c s = "".
Proof.
  induction s as [|a s IH]; [done|]. simpl.
  intros [Ha Hs]%andb_true_iff. by rewrite (IH Hs), Ha.
Qed.

Lemma rstrip_app (c : ascii) (x y : string) :
  Str.all_char c y = true -> Str.rstrip c (x +:+ y) = Str.rstrip c x.
Proof.
  intros Hy. induction x as [|a x IH]; simpl.
  - by apply all_char_rstrip.
  - by rewrite IH.
Qed.

Lemma all_char_app (c : ascii) (x y : string) :
  Str.all_char c (x +:+ y) = Str.all_char c x && Str.all_char c y.
Proof.
  induction x as [|a x IH]; [done|]. simpl. by rewrite IH, andb_assoc.
Qed.

Lemma rstrip_fixed_not_all (c : ascii) (d : string) :
  Str.nonempty d = true -> Str.rstrip c d = d -> Str.all_char c d = false.
Proof.
  intros Hne Hfix. apply not_true_iff_false. intros Hall.
  rewrite (all_char_rstrip _ _ Hall) in Hfix. by destruct d.
Qed.

(** On a path [d/name] with [d] non-empty and not ending in a slash,
    [os.path.dirname] gives [d]. *)
Lemma dirname_app (d name : string) :
  Str.str_in "/" name = false ->
  Str.nonempty d = true ->
  Str.rstrip Str.slash d = d ->
  Str.dirname (d +:+ "/" +:+ name) = d.
Proof.
  intros Hn Hne Hfix. unfold Str.dirname.
  change (d +:+ "/" +:+ name) with (d +:+ String Str.slash name).
  assert (Hhead : Str.upto_last Str.slash (String Str.slash name) = "/").
  { simpl. by rewrite (upto_last_no_slash _ Hn). }
  rewrite upto_last_app by by rewrite Hhead.
  rewrite Hhead, all_char_app, (rstrip_fixed_not_all _ _ Hne Hfix). simpl.
  replace (Str.nonempty (d +:+ "/")) with true by by destruct d.
  simpl. rewrite rstrip_app by done. done.
Qed.

(** C6. With [validate = False], a manifest with a "model" entry: the call
    raises the exception whose message names the directory of the model path
    exactly when some entry whose key does not contain "version" is not a
    regular file; otherwise it returns normally; either way the world is left
    as it was.  For a model path [d/name] the directory named is [d], which is
    also [os.path.dirname] of the model path, the cache directory of the
    validating branch. *)
Theorem check_file_without_validate (remote : string -> option reply)
    (file : list (string * string)) (s3_file : gmap string string)
    (w : World) (model : string) :
  assoc file "model" = Some model ->
  (check_file remote file s3_file false w
   = (Raise (Exception (Str.join "/" (removelast (Str.split Str.slash model))
                        +:+ " is not available, please `validate = True`")), w)
   <-> some_absent (fs w) file) /\
  (~ some_absent (fs w) file -> check_file remote file s3_file false w = (Ok tt, w)) /\
  (forall d name,
     model = d +:+ "/" +:+ name -> Str.str_in "/" name = false ->
     Str.nonempty d = true -> Str.rstrip Str.slash d = d ->
     Str.join "/" (removelast (Str.split Str.slash model)) = d /\
     Str.dirname model = d).
Proof.
  intros Hm.
  assert (Hrun : forall b, check_available file w = (Ok b, w) ->
            check_file remote file s3_file false w
            = if b then (Ok tt, w)
              else (Raise (Exception (Str.join "/" (removelast (Str.split Str.slash model))
                        +:+ " is not available, please `validate = True`")), w)).
  { intros b Hb. unfold check_file. rewrite (bind_ok _ _ _ _ _ Hb).
    destruct b; simpl; [done|]. unfold getitem_l. rewrite Hm. done. }
  pose proof (check_available_run file w) as Hb.
  pose proof (forallb_false_absent (fs w) file) as Hiff.
  destruct (forallb _ file) as [|] eqn:Hall in Hb, Hiff.
  all: rewrite (Hrun _ Hb); split; [|split].
  - split; [done|]. intros Ha. apply Hiff in Ha. done.
  - done.
  - intros d name -> Hn Hne Hfix. split; [by apply named_dir_app|by apply dirname_app].
  - split; [intros _; by apply Hiff|done].
  - intros Hna. destruct Hna. by apply Hiff.
  - intros d name -> Hn Hne Hfix. split; [by apply named_dir_app|by apply dirname_app].
Qed.

(** A manifest without a "model" entry and with a file missing: the lookup
    of line 108 raises instead. *)
Lemma check_file_without_validate_no_model (remote : string -> option reply)
    (file : list (string * string)) (s3_file : gmap string string) (w : World) :
  assoc file "model" = None ->
  some_absent (fs w) file ->
  check_file remote file s3_file false w = (Raise (KeyError "model"), w).
Proof.
  intros Hm Habs. unfold check_file.
  rewrite (bind_ok _ _ _ _ _ (check_available_run file w)).
  apply forallb_false_absent in Habs as ->. simpl.
  unfold getitem_l. by rewrite Hm.
Qed.

(** The example of the spec, evaluated: ["a/m.pb"] missing. *)
Lemma check_file_without_validate_witness :
  check_file (fun _ => None) [("model", "a/m.pb"); ("version", "1.0")] ∅ false
    (mkWorld ∅ [])
  = (Raise (Exception "a is not available, please `validate = True`"), mkWorld ∅ []).
Proof.
  pose proof (check_file_without_validate (fun _ => None)
    [("model", "a/m.pb"); ("version", "1.0")] ∅ (mkWorld ∅ []) "a/m.pb" eq_refl)
    as (Hraise & _ & _).
  apply Hraise. exists "model", "a/m.pb". split; [by left|]. split; reflexivity.
Defined.

(** ** Keys that contain "version" *)

Lemma check_available_skip (pre post : list (string * string))
    (key item : string) (w : World) :
  Str.str_in "version" key = true ->
  check_available (pre ++ (key, item) :: post) w = check_available (pre ++ post) w.
Proof.
  intros Hk. rewrite !check_available_run. do 2 f_equal.
  rewrite !forallb_app. simpl. by rewrite Hk.
Qed.

Lemma bind_ext {S A B} (m : ST S A) (k1 k2 : A -> ST S B) (w : S) :
  (forall a w', k1 a w' = k2 a w') -> bind m k1 w = bind m k2 w.
Proof. intros H. unfold bind. destruct (m w) as [[a|e] w']; [apply H|done]. Qed.

Lemma download_missing_cons (remote : string -> option reply) (base : string)
    (s3_file : gmap string string) (key item : string)
    (rest : list (string * string)) :
  download_missing remote base s3_file ((key, item) :: rest)
  = if Str.str_in "version" key then download_missing remote base s3_file rest
    else
      b <- isfile item;
      (if negb b then
         print ("downloading frozen " +:+ base +:+ " " +:+ key);;
         url <- getitem s3_file key;
         download_file remote url item
       else ret tt);;
      download_missing remote base s3_file rest.
Proof. reflexivity. Qed.

Lemma download_missing_skip (remote : string -> option reply) (base : string)
    (s3_file : gmap string string) (pre post : list (string * string))
    (key item : string) (w : World) :
  Str.str_in "version" key = true ->
  download_missing remote base s3_file (pre ++ (key, item) :: post) w
  = download_missing remote base s3_file (pre ++ post) w.
Proof.
  intros Hk. revert w. induction pre as [|[k p] pre IH]; intros w.
  - change ([] ++ (key, item) :: post) with ((key, item) :: post).
    by rewrite download_missing_cons, Hk.
  - rewrite <- !app_comm_cons, !download_missing_cons.
    destruct (Str.str_in "version" k); [apply IH|].
    apply bind_ext. intros b w1. apply bind_ext. intros _ w2. apply IH.
Qed.

(** C9. An entry whose key contains "version" anywhere (["model_version"] as
    much as ["version"]) is skipped by [check_available] and by the download
    loop of [check_file]: both behave exactly as on the manifest without the
    entry, whatever its path and whatever is on disk there; so the entry is
    neither looked at nor downloaded, and it cannot turn the answer of
    [check_available] into [False]. *)
Theorem version_keys_skipped (remote : string -> option reply) (base : string)
    (s3_file : gmap string string) (pre post : list (string * string))
    (key item : string) (w : World) :
  Str.str_in "version" key = true ->
  check_available (pre ++ (key, item) :: post) w = check_available (pre ++ post) w /\
  download_missing remote base s3_file (pre ++ (key, item) :: post) w
  = download_missing remote base s3_file (pre ++ post) w /\
  (check_available (pre ++ post) w = (Ok true, w) ->
   check_available (pre ++ (key, item) :: post) w = (Ok true, w)).
Proof.
  intros Hk. split; [by apply check_available_skip|].
  split; [by apply download_missing_skip|].
  intros H. by rewrite check_available_skip.
Qed.

Lemma version_keys_skipped_witness :
  Str.str_in "version" "model_version" = true /\
  is_file Scenario.unmarked "a/absent" = false /\
  check_available Scenario.manifest3 (Scenario.start Scenario.unmarked)
  = (Ok true, Scenario.start Scenario.unmarked).
Proof.
  split; [reflexivity|]. split; [reflexivity|].
  apply (version_keys_skipped Scenario.unreachable "a" ∅
           [("model", "a/m.pb")] [("version", "1.0")] "model_version" "a/absent");
    reflexivity.
Defined.

(** ** [download_file] *)

Lemma file_at_mkdirs (ds : list string) (m : gmap string node) (q : string) :
  existsb (is_file m) ds = false ->
  file_at (mkdirs ds m) q = file_at m q.
Proof.
  induction ds as [|d ds IH]; simpl; [done|].
  intros [Hd Hds]%orb_false_iff. unfold file_at at 1.
  destruct (decide (d = q)) as [->|Hne].
  - rewrite lookup_insert_eq. unfold is_file in Hd. unfold file_at.
    destruct (m !! q) as [[c|]|]; done.
  - rewrite lookup_insert_ne by done. by apply IH.
Qed.

Lemma file_at_is_file (m : gmap string node) (q : string) :
  is_file m q = match file_at m q with Some _ => true | None => false end.
Proof. unfold is_file, file_at. by destruct (m !! q) as [[c|]|]. Qed.

Lemma resolve_get (remote : string -> option reply) (url : string) :
  (if Str.str_in "http" url then requests_get remote url
   else requests_get remote (base_url +:+ url))
  = requests_get remote (resolve url).
Proof. unfold resolve. by destruct (Str.str_in "http" url). Qed.

(** The primitives, one by one: the event each adds, and what it leaves
    alone on disk. *)
Lemma requests_get_effect (remote : string -> option reply) (url : string)
    (w : World) (r : result reply) (w' : World) :
  requests_get remote url w = (r, w') ->
  w' = mkWorld (fs w) (trace w ++ [EGet url]).
Proof.
  unfold requests_get, emit, bind, ret, raise. simpl.
  destruct (remote url); by injection 1 as _ <-.
Qed.

Lemma makedirs_effect (d : string) (w : World) (r : result unit) (w' : World) :
  makedirs d w = (r, w') ->
  trace w' = trace w ++ [EMakedirs d] /\
  (forall q, file_at (fs w') q = file_at (fs w) q).
Proof.
  unfold makedirs, emit, get_fs, set_fs, bind, ret, raise. simpl.
  destruct (Str.nonempty d); simpl; [|by injection 1 as <- <-].
  destruct (existsb (is_file (fs w)) (ancestors d)) eqn:Hex;
    injection 1 as <- <-; simpl; [done|].
  split; [done|]. intros q. by apply file_at_mkdirs.
Qed.

Lemma open_w_effect (md : mode) (p : string) (w : World) (r : result unit) (w' : World) :
  open_w md p w = (r, w') ->
  trace w' = trace w ++ [EOpen md p] /\
  (forall q, q <> p -> file_at (fs w') q = file_at (fs w) q) /\
  (r = Ok tt -> file_at (fs w') p = Some "").
Proof.
  unfold open_w, emit, get_fs, set_fs, bind, ret, raise. simpl.
  destruct (is_dir (fs w) p); simpl; [by injection 1 as <- <-|].
  destruct (parent_ok (fs w) p); simpl; injection 1 as <- <-; simpl;
    (split; [done|]); [|done].
  split.
  - intros q Hq. unfold file_at. by rewrite lookup_insert_ne.
  - intros _. unfold file_at. by rewrite lookup_insert_eq.
Qed.

Lemma write_chunks_run (p : string) (data : list string) (w : World) :
  exists m',
    write_chunks p data w = (Ok tt, mkWorld m' (trace w ++ map (EWrite p) data)) /\
    (forall q, q <> p -> file_at m' q = file_at (fs w) q) /\
    (is_file (fs w) p = true -> is_file m' p = true).
Proof.
  revert w. induction data as [|c rest IH]; intros [m tr].
  - exists m. simpl. by rewrite app_nil_r.
  - destruct (IH (mkWorld (<[p := File (default "" (file_at m p) +:+ c)]> m)
                    (tr ++ [EWrite p c]))) as (m' & Hrun & Hframe & Hfile).
    exists m'. split; [|split].
    + change (write_chunks p (c :: rest))
        with (write p c;; write_chunks p rest).
      rewrite (bind_ok _ _ _ tt
                 (mkWorld (<[p := File (default "" (file_at m p) +:+ c)]> m)
                    (tr ++ [EWrite p c]))) by done.
      rewrite Hrun. simpl. by rewrite <- app_assoc.
    + intros q Hq. rewrite (Hframe q Hq). simpl. unfold file_at.
      by rewrite lookup_insert_ne.
    + intros _. apply Hfile. simpl. unfold is_file. by rewrite lookup_insert_eq.
Qed.

(** What one call of [download_file] does, whatever its outcome: one GET of
    the resolved URL, then some first steps of creating the directories,
    opening the file and writing the chunks; no regular file other than
    [filename] changes; and on normal return [filename] is a regular file. *)
Lemma download_file_effect (remote : string -> option reply)
    (url filename : string) (w : World) (r : result unit) (w' : World) :
  download_file remote url filename w = (r, w') ->
  (exists evs data,
     trace w' = trace w ++ EGet (resolve url) :: evs /\
     evs `prefix_of` download_steps filename data) /\
  (forall q, q <> filename -> file_at (fs w') q = file_at (fs w) q) /\
  (r = Ok tt -> is_file (fs w') filename = true).
Proof.
  unfold download_file. rewrite resolve_get. intros Hrun.
  apply bind_inv in Hrun as [(rep & w1 & Hget & Hrun)|(e & Hget & ->)].
  2: { apply requests_get_effect in Hget as ->. simpl.
       split; [|done]. exists [], []. split; [done|apply prefix_nil]. }
  apply requests_get_effect in Hget as ->.
  apply bind_inv in Hrun as [(n & w1 & Hlen & Hrun)|(e & Hlen & ->)].
  2: { destruct (content_length rep); [done|]. injection Hlen as _ <-. simpl.
       split; [|done]. exists [], []. split; [done|apply prefix_nil]. }
  destruct (content_length rep); [|done]. injection Hlen as _ <-.
  apply bind_inv in Hrun as [([] & w2 & Hmk & Hrun)|(e & Hmk & ->)].
  2: { apply makedirs_effect in Hmk as (Htr & Hframe). simpl in *.
       split; [|split; [by intros q _; rewrite Hframe|done]].
       exists [EMakedirs (Str.dirname filename)], []. rewrite Htr, <- app_assoc.
       split; [done|]. by exists [EOpen Binary filename]. }
  apply makedirs_effect in Hmk as (Htr2 & Hframe2). simpl in *.
  apply bind_inv in Hrun as [([] & w3 & Hop & Hrun)|(e & Hop & ->)].
  2: { apply open_w_effect in Hop as (Htr & Hframe & _).
       split; [|split; [|done]].
       - exists [EMakedirs (Str.dirname filename); EOpen Binary filename], [].
         rewrite Htr, Htr2, <- !app_assoc. split; [done|]. by exists [].
       - intros q Hq. by rewrite (Hframe q Hq), Hframe2. }
  apply open_w_effect in Hop as (Htr3 & Hframe3 & Hfile3).
  specialize (Hfile3 eq_refl).
  destruct (write_chunks_run filename (chunks rep) w3) as (m' & Hwr & Hframe4 & Hfile4).
  rewrite (bind_ok _ _ _ _ _ Hwr) in Hrun.
  assert (r = (if intact rep then Ok tt else Raise (RequestError url)) /\
          w' = mkWorld m' (trace w3 ++ map (EWrite filename) (chunks rep)))
    as [-> ->].
  { destruct (intact rep); by injection Hrun as <- <-. }
  simpl. split; [|split].
  - exists (download_steps filename (chunks rep)), (chunks rep).
    split; [|done]. rewrite Htr3, Htr2, <- !app_assoc. done.
  - intros q Hq. by rewrite (Hframe4 q Hq), (Hframe3 q Hq), Hframe2.
  - intros _. apply Hfile4. by rewrite file_at_is_file, Hfile3.
Qed.

Lemma steps_quiet (p : string) (data : list string) :
  gets (download_steps p data) = [] /\
  List.filter is_text_open (download_steps p data) = [].
Proof.
  unfold download_steps. simpl. induction data as [|c rest [IH1 IH2]]; [done|].
  simpl in *. by rewrite IH2.
Qed.

(** C8. [download_file] issues exactly one GET.  Its target is the locator
    itself when the locator contains "http", and the default base URL of the
    blob store followed by the locator otherwise; the two targets are never
    the same string, so exactly one of the two resolutions applies. *)
Theorem download_file_resolution (remote : string -> option reply)
    (url filename : string) (w : World) :
  exists target evs,
    trace (download_file remote url filename w).2 = trace w ++ EGet target :: evs /\
    gets evs = [] /\
    (Str.str_in "http" url = true /\ target = url \/
     Str.str_in "http" url = false /\
     target = "https://f000.backblazeb2.com/file/malaya-model/" +:+ url) /\
    "https://f000.backblazeb2.com/file/malaya-model/" +:+ url <> url.
Proof.
  destruct (download_file remote url filename w) as [r w'] eqn:Hrun.
  destruct (download_file_effect _ _ _ _ _ _ Hrun) as ((evs & data & Htr & Hpre) & _).
  exists (resolve url), evs. split; [done|]. split; [|split].
  - destruct (steps_quiet filename data) as [Hg _]. destruct Hpre as [k Hk].
    rewrite Hk in Hg. unfold gets in Hg. rewrite omap_app in Hg.
    by apply app_eq_nil in Hg as [? _].
  - unfold resolve. destruct (Str.str_in "http" url); [by left|by right].
  - apply base_url_changes.
Qed.

(** ** The download loop *)

Lemma prefix_steps_quiet (p : string) (data : list string) (evs : list event) :
  evs `prefix_of` download_steps p data ->
  gets evs = [] /\ List.filter is_text_open evs = [].
Proof.
  destruct (steps_quiet p data) as [Hg Ht]. intros [k Hk]. split.
  - rewrite Hk in Hg. unfold gets in Hg. rewrite omap_app in Hg.
    by apply app_eq_nil in Hg as [? _].
  - rewrite Hk, List.filter_app in Ht. by apply app_eq_nil in Ht as [? _].
Qed.

Lemma gets_app (a b : list event) : gets (a ++ b) = gets a ++ gets b.
Proof. apply omap_app. Qed.

Lemma print_run (msg : string) (w : World) :
  print msg w = (Ok tt, mkWorld (fs w) (trace w ++ [EPrint msg])).
Proof. done. Qed.

(** The loop of lines 98-103, started on a disk that has the regular files
    of [m0] and those at the paths [seen]: whatever the outcome, the URLs
    requested are those of an initial part [fetched] of the plan, in order;
    the loop opens nothing in text mode, changes no regular file that is not
    the path of an entry to download, and keeps regular files regular. On
    normal return the whole plan has been fetched and every entry to download
    is a regular file. *)
Lemma download_missing_effect (remote : string -> option reply) (base : string)
    (s3_file : gmap string string) (m0 : gmap string node)
    (file : list (string * string)) :
  forall (seen : list string) (w : World) (r : result unit) (w' : World),
  (forall q, is_file (fs w) q = bool_decide (q ∈ seen) || is_file m0 q) ->
  download_missing remote base s3_file file w = (r, w') ->
  exists evs fetched rest,
    trace w' = trace w ++ evs /\
    List.filter is_text_open evs = [] /\
    (forall q, (forall k, (k, q) ∈ file -> Str.str_in "version" k = true) ->
               file_at (fs w') q = file_at (fs w) q) /\
    (forall q, is_file (fs w) q = true -> is_file (fs w') q = true) /\
    first_per_path seen (List.filter (needs_fetch m0) file) = fetched ++ rest /\
    Forall2 (fetched_from s3_file) fetched (gets evs) /\
    (r = Ok tt ->
     rest = [] /\
     forall k p, (k, p) ∈ file -> Str.str_in "version" k = false ->
                 is_file (fs w') p = true).
Proof.
  induction file as [|[k p] rest0 IH]; intros seen w r w' Hinv Hrun.
  - injection Hrun as <- <-. exists [], [], []. rewrite app_nil_r.
    repeat split; try done; try constructor.
    intros k p Hin. by apply elem_of_nil in Hin.
  - rewrite download_missing_cons in Hrun.
    destruct (Str.str_in "version" k) eqn:Hk.
    { (* a key that contains "version": skipped *)
      destruct (IH seen w r w' Hinv Hrun)
        as (evs & fetched & rest & Htr & Htxt & Hframe & Hmono & Hplan & Hdone & Hok).
      exists evs, fetched, rest. repeat split; try done.
      - intros q Hq. apply Hframe. intros k' Hin. apply Hq. by right.
      - simpl. unfold needs_fetch at 1. simpl. by rewrite Hk.
      - by apply Hok.
      - intros k' p' Hin Hk'. match goal with Hr : _ = Ok tt |- _ => destruct (Hok Hr) as [_ Hall] end.
        apply elem_of_cons in Hin as [Heq|Hin].
        + inversion Heq; subst. congruence.
        + by apply (Hall k'). }
    apply bind_inv in Hrun as [(b & w1 & H1 & Hrun)|(e & H1 & _)];
      rewrite isfile_run in H1; [|done].
    injection H1 as <- <-.
    destruct (is_file (fs w) p) eqn:Hf; simpl negb in Hrun; cbv iota in Hrun.
    { (* already a regular file: skipped *)
      apply bind_inv in Hrun as [(u & w1 & H1 & Hrun)|(e & H1 & _)]; [|done].
      injection H1 as _ <-.
      destruct (IH seen w r w' Hinv Hrun)
        as (evs & fetched & rest & Htr & Htxt & Hframe & Hmono & Hplan & Hdone & Hok).
      exists evs, fetched, rest. repeat split; try done.
      - intros q Hq. apply Hframe. intros k' Hin. apply Hq. by right.
      - simpl. unfold needs_fetch at 1. simpl. rewrite Hk. simpl.
        pose proof (Hinv p) as Hp. rewrite Hf in Hp.
        destruct (is_file m0 p); simpl; [done|].
        rewrite orb_false_r in Hp. by rewrite <- Hp.
      - by apply Hok.
      - intros k' p' Hin Hk'. match goal with Hr : _ = Ok tt |- _ => destruct (Hok Hr) as [_ Hall] end.
        apply elem_of_cons in Hin as [Heq|Hin].
        + inversion Heq; subst. by apply Hmono.
        + by apply (Hall k'). }
    (* not a regular file: on the plan *)
    pose proof (Hinv p) as Hp. rewrite Hf in Hp. symmetry in Hp.
    apply orb_false_iff in Hp as [Hseen Hm0].
    assert (first_per_path seen (List.filter (needs_fetch m0) ((k, p) :: rest0))
            = (k, p) :: first_per_path (p :: seen) (List.filter (needs_fetch m0) rest0))
      as Hhead.
    { simpl. unfold needs_fetch at 1. simpl. rewrite Hk, Hm0. simpl. by rewrite Hseen. }
    assert (Hq_ne : forall q, (forall k', (k', q) ∈ (k, p) :: rest0 ->
                       Str.str_in "version" k' = true) -> q <> p).
    { intros q Hq ->. specialize (Hq k (list_elem_of_here _ _)). congruence. }
    apply bind_inv in Hrun as [(u & w2 & Hdl & Hrun)|(e & Hdl & ->)].
    2: { (* the fetch raised *)
      apply bind_inv in Hdl as [(u & w1 & H1 & Hdl)|(e' & H1 & _)];
        rewrite print_run in H1; [|done].
      injection H1 as _ <-.
      unfold getitem in Hdl at 1.
      apply bind_inv in Hdl as [(url & w1 & H1 & Hdl)|(e' & H1 & He)].
      - destruct (s3_file !! k) as [loc|] eqn:Hloc; [|done].
        injection H1 as <- <-.
        destruct (download_file_effect _ _ _ _ _ _ Hdl)
          as ((evs & data & Htr & Hpre) & Hframe & _).
        destruct (prefix_steps_quiet _ _ _ Hpre) as [Hg Ht].
        simpl in Htr, Hframe.
        exists (EPrint ("downloading frozen " +:+ base +:+ " " +:+ k)
                :: EGet (resolve loc) :: evs),
               [(k, p)], (first_per_path (p :: seen) (List.filter (needs_fetch m0) rest0)).
        repeat split; try done.
        + by rewrite Htr, <- app_assoc.
        + intros q Hq. apply Hframe. by apply Hq_ne.
        + intros q Hq. rewrite file_at_is_file in *.
          rewrite Hframe; [done|]. intros ->. congruence.
        + simpl. rewrite Hg. constructor; [by exists loc|constructor].
      - destruct (s3_file !! k) as [loc|]; [done|].
        injection H1 as _ <-.
        exists [EPrint ("downloading frozen " +:+ base +:+ " " +:+ k)], [],
               ((k, p) :: first_per_path (p :: seen) (List.filter (needs_fetch m0) rest0)).
        repeat split; done. }
    destruct u.
    apply bind_inv in Hdl as [(u & w1 & H1 & Hdl)|(e' & H1 & _)];
      rewrite print_run in H1; [|done].
    injection H1 as _ <-.
    apply bind_inv in Hdl as [(url & w1 & H1 & Hdl)|(e' & H1 & He)]; [|done].
    unfold getitem in H1. destruct (s3_file !! k) as [loc|] eqn:Hloc; [|done].
    injection H1 as <- <-.
    destruct (download_file_effect _ _ _ _ _ _ Hdl)
      as ((evs1 & data & Htr1 & Hpre) & Hframe1 & Hfile).
    destruct (prefix_steps_quiet _ _ _ Hpre) as [Hg1 Ht1].
    simpl in Htr1, Hframe1. specialize (Hfile eq_refl).
    assert (Hinv2 : forall q, is_file (fs w2) q
                              = bool_decide (q ∈ p :: seen) || is_file m0 q).
    { intros q. destruct (decide (q = p)) as [->|Hne].
      - rewrite Hfile. rewrite bool_decide_eq_true_2; [done|]. by left.
      - rewrite file_at_is_file, (Hframe1 q Hne), <- file_at_is_file, Hinv.
        f_equal. apply bool_decide_ext. rewrite elem_of_cons. intuition. }
    destruct (IH (p :: seen) w2 r w' Hinv2 Hrun)
      as (evs2 & fetched2 & rest2 & Htr2 & Htxt2 & Hframe2 & Hmono2 & Hplan2 & Hdone2 & Hok2).
    exists (EPrint ("downloading frozen " +:+ base +:+ " " +:+ k)
            :: EGet (resolve loc) :: evs1 ++ evs2),
           ((k, p) :: fetched2), rest2.
    repeat split.
    + by rewrite Htr2, Htr1, <- !app_assoc.
    + simpl. by rewrite List.filter_app, Ht1, Htxt2.
    + intros q Hq. rewrite Hframe2, Hframe1; [done|by apply Hq_ne|].
      intros k' Hin. apply Hq. by right.
    + intros q Hq. apply Hmono2. rewrite file_at_is_file in *.
      rewrite Hframe1; [done|]. intros ->. congruence.
    + by rewrite Hhead, Hplan2.
    + simpl. rewrite gets_app, Hg1. simpl. constructor; [by exists loc|done].
    + by apply Hok2.
    + intros k' p' Hin Hk'. match goal with Hr : _ = Ok tt |- _ => destruct (Hok2 Hr) as [_ Hall] end.
      apply elem_of_cons in Hin as [Heq|Hin].
      * inversion Heq; subst. by apply Hmono2.
      * by apply (Hall k').
Qed.

(** ** The validating branch of [check_file] *)

Lemma check_file_validate (remote : string -> option reply)
    (file : list (string * string)) (s3_file : gmap string string)
    (model : string) (w : World) :
  assoc file "model" = Some model ->
  check_file remote file s3_file true w
  = (download <- stale_or_missing file (Str.dirname model)
                   (Str.dirname model +:+ "/version");
     if download then
       download_missing remote (Str.dirname model) s3_file file;;
       write_marker file (Str.dirname model +:+ "/version")
     else ret tt) w.
Proof. intros Hm. unfold check_file, getitem_l. rewrite Hm. done. Qed.

Lemma check_file_validate_no_model (remote : string -> option reply)
    (file : list (string * string)) (s3_file : gmap string string) (w : World) :
  assoc file "model" = None ->
  check_file remote file s3_file true w = (Raise (KeyError "model"), w).
Proof. intros Hm. unfold check_file, getitem_l. rewrite Hm. done. Qed.

Lemma any_missing_run (file : list (string * string)) (w : World) :
  any_missing file w
  = (Ok (existsb (fun kv => negb (path_exists (fs w) kv.2)) file), w).
Proof.
  induction file as [|[key item] rest IH]; [done|].
  change (any_missing ((key, item) :: rest))
    with (b <- exists_ item; if negb b then ret true else any_missing rest).
  rewrite (bind_ok _ _ _ _ _ (exists_run item w)). simpl.
  destruct (path_exists (fs w) item); simpl; [apply IH|done].
Qed.

(** No Version Marker: download. *)
Lemma stale_or_missing_no_marker (file : list (string * string))
    (base version : string) (w : World) :
  is_file (fs w) version = false ->
  stale_or_missing file base version w = (Ok true, w).
Proof.
  intros Hf. unfold stale_or_missing.
  rewrite (bind_ok _ _ _ _ _ (isfile_run version w)). by rewrite Hf.
Qed.

Lemma read_text_run (p c : string) (w : World) :
  file_at (fs w) p = Some c -> read_text p w = (Ok c, w).
Proof. intros H. unfold read_text, get_fs, bind. by rewrite H. Qed.

Lemma file_at_Some_is_file (m : gmap string node) (p c : string) :
  file_at m p = Some c -> is_file m p = true.
Proof. intros H. by rewrite file_at_is_file, H. Qed.

Lemma is_file_file_at (m : gmap string node) (p : string) :
  is_file m p = true -> exists c, file_at m p = Some c.
Proof.
  rewrite file_at_is_file. destruct (file_at m p) as [c|]; [by exists c|done].
Qed.

(** A Version Marker that does not contain the expected version: the cache
    directory is deleted, then download. *)
Lemma stale_or_missing_stale (file : list (string * string))
    (base version v content : string) (w : World) :
  file_at (fs w) version = Some content ->
  assoc file "version" = Some v ->
  Str.str_in v content = false ->
  stale_or_missing file base version w
  = (Ok true,
     mkWorld (rmtree base (fs w))
       (trace w ++ [EPrint ("Found old version of " +:+ base +:+ ", deleting..");
                    ERmtree base; EPrint "Done."])).
Proof.
  intros Hc Hv Hin. unfold stale_or_missing.
  rewrite (bind_ok _ _ _ _ _ (isfile_run version w)).
  rewrite (file_at_Some_is_file _ _ _ Hc).
  unfold getitem_l. rewrite Hv.
  unfold bind at 1. unfold ret at 1.
  rewrite (bind_ok _ _ _ _ _ (read_text_run _ _ _ Hc)). rewrite Hin.
  unfold _delete_folder, print, emit, set_fs, bind, ret. simpl.
  by rewrite <- !app_assoc.
Qed.

(** A Version Marker that contains the expected version: download when some
    value of the manifest is not an existing path. *)
Lemma stale_or_missing_current (file : list (string * string))
    (base version v content : string) (w : World) :
  file_at (fs w) version = Some content ->
  assoc file "version" = Some v ->
  Str.str_in v content = true ->
  stale_or_missing file base version w
  = (Ok (existsb (fun kv => negb (path_exists (fs w) kv.2)) file), w).
Proof.
  intros Hc Hv Hin. unfold stale_or_missing.
  rewrite (bind_ok _ _ _ _ _ (isfile_run version w)).
  rewrite (file_at_Some_is_file _ _ _ Hc).
  unfold getitem_l. rewrite Hv.
  unfold bind at 1. unfold ret at 1.
  rewrite (bind_ok _ _ _ _ _ (read_text_run _ _ _ Hc)). rewrite Hin.
  apply any_missing_run.
Qed.

Lemma stale_or_missing_no_version (file : list (string * string))
    (base version : string) (w : World) :
  is_file (fs w) version = true ->
  assoc file "version" = None ->
  stale_or_missing file base version w = (Raise (KeyError "version"), w).
Proof.
  intros Hf Hv. unfold stale_or_missing.
  rewrite (bind_ok _ _ _ _ _ (isfile_run version w)), Hf.
  unfold getitem_l. by rewrite Hv.
Qed.

(** The decision never requests anything and never opens the marker for
    writing; it either leaves the disk alone or deletes the cache directory. *)
Lemma stale_or_missing_effect (file : list (string * string))
    (base version : string) (w : World) (r : result bool) (w0 : World) :
  stale_or_missing file base version w = (r, w0) ->
  exists evs,
    trace w0 = trace w ++ evs /\
    gets evs = [] /\ List.filter is_text_open evs = [] /\
    (r = Ok false ->
     w0 = w /\
     exists v content,
       assoc file "version" = Some v /\ file_at (fs w) version = Some content /\
       Str.str_in v content = true /\
       forall k p, (k, p) ∈ file -> path_exists (fs w) p = true).
Proof.
  intros Hrun. destruct (is_file (fs w) version) eqn:Hf.
  - destruct (is_file_file_at _ _ Hf) as [content Hc].
    destruct (assoc file "version") as [v|] eqn:Hv.
    + destruct (Str.str_in v content) eqn:Hin.
      * rewrite (stale_or_missing_current _ _ _ _ _ _ Hc Hv Hin) in Hrun.
        injection Hrun as <- <-. exists []. rewrite app_nil_r.
        repeat split; try done.
        exists v, content. repeat split; try done.
        intros k p Hkp. apply not_false_iff_true. intros Hp.
        assert (existsb (fun kv => negb (path_exists (fs w) kv.2)) file = true) as Hex.
        { apply existsb_exists. exists (k, p). split.
          - by apply list_elem_of_In.
          - simpl. by rewrite Hp. }
        congruence.
      * rewrite (stale_or_missing_stale _ _ _ _ _ _ Hc Hv Hin) in Hrun.
        injection Hrun as <- <-. simpl. eexists. split; [done|].
        repeat split; done.
    + rewrite (stale_or_missing_no_version _ _ _ _ Hf Hv) in Hrun.
      injection Hrun as <- <-. exists []. rewrite app_nil_r. repeat split; done.
  - rewrite (stale_or_missing_no_marker _ _ _ _ Hf) in Hrun.
    injection Hrun as <- <-. exists []. rewrite app_nil_r. repeat split; done.
Qed.

(** Writing the marker: opened in text mode first, then the expected version
    written. *)
Lemma write_marker_effect (file : list (string * string)) (version : string)
    (w : World) (r : result unit) (w' : World) :
  write_marker file version w = (r, w') ->
  exists evs,
    trace w' = trace w ++ EOpen Text version :: evs /\ gets evs = [] /\
    (r = Ok tt ->
     exists v, assoc file "version" = Some v /\
               file_at (fs w') version = Some v /\
               evs = [EWrite version v]).
Proof.
  unfold write_marker, open_w, write, getitem_l, emit, get_fs, set_fs, bind, ret, raise.
  simpl. intros H.
  repeat case_match; simplify_eq; simpl; eexists; (split; [rewrite <- ?app_assoc; simpl; reflexivity|]);
    (split; [done|]); try done.
  intros _. eexists. split; [done|]. split; [|done].
  unfold file_at. rewrite !lookup_insert_eq. done.
Qed.

Lemma first_per_path_sub (seen : list string) (l : list (string * string))
    (kv : string * string) :
  kv ∈ first_per_path seen l -> kv ∈ l /\ kv.2 ∉ seen.
Proof.
  revert seen. induction l as [|[k p] l IH]; intros seen; simpl.
  - intros H. by apply elem_of_nil in H.
  - case_bool_decide as Hs.
    + intros H. destruct (IH _ H). split; [by right|done].
    + intros [->|H]%elem_of_cons; [split; [by left|done]|].
      destruct (IH _ H) as [Hin Hn]. split; [by right|].
      intros Hin'. apply Hn. by right.
Qed.

Lemma first_per_path_covers (seen : list string) (l : list (string * string))
    (k p : string) :
  (k, p) ∈ l -> p ∉ seen -> exists k', (k', p) ∈ first_per_path seen l.
Proof.
  revert seen. induction l as [|[k0 p0] l IH]; intros seen Hin Hs.
  - by apply elem_of_nil in Hin.
  - simpl. case_bool_decide as Hs0.
    + apply elem_of_cons in Hin as [Heq|Hin]; [inversion Heq; by subst|].
      by apply IH.
    + destruct (decide (p = p0)) as [->|Hne].
      * exists k0. by left.
      * apply elem_of_cons in Hin as [Heq|Hin]; [inversion Heq; by subst|].
        destruct (IH (p0 :: seen) Hin) as [k' Hk'].
        { intros [?|?]%elem_of_cons; done. }
        exists k'. by right.
Qed.

Lemma first_per_path_distinct (seen : list string) (l : list (string * string)) :
  NoDup (map snd l) ->
  (forall kv, kv ∈ l -> kv.2 ∉ seen) ->
  first_per_path seen l = l.
Proof.
  revert seen. induction l as [|[k p] l IH]; intros seen Hnd Hseen; [done|].
  simpl in *. apply NoDup_cons in Hnd as [Hp Hnd].
  rewrite bool_decide_eq_false_2 by apply (Hseen (k, p)), list_elem_of_here.
  f_equal. apply IH; [done|]. intros kv Hkv Hin.
  apply elem_of_cons in Hin as [Heq|Hin].
  - apply Hp. rewrite <- Heq. apply list_elem_of_In, in_map.
    by apply list_elem_of_In.
  - apply (Hseen kv); [by right|done].
Qed.

(** When the files to fetch have paths of their own, the plan is simply the
    entries that need fetching. *)
Lemma pending_distinct_paths (m : gmap string node) (file : list (string * string)) :
  NoDup (map snd (List.filter (needs_fetch m) file)) ->
  pending m file = List.filter (needs_fetch m) file.
Proof.
  intros Hnd. apply first_per_path_distinct; [done|].
  intros kv _. apply not_elem_of_nil.
Qed.

(** An entry that is a regular file on disk is not fetched. *)
Lemma pending_not_present (m : gmap string node) (file : list (string * string))
    (key item : string) :
  is_file m item = true -> (key, item) ∉ pending m file.
Proof.
  intros Hf Hin. apply first_per_path_sub in Hin as [Hin _].
  apply list_elem_of_In, List.filter_In in Hin as [_ Hn].
  unfold needs_fetch in Hn. simpl in Hn. rewrite Hf in Hn.
  by rewrite andb_false_r in Hn.
Qed.

(** An entry that has to be fetched has its path fetched, under the first
    key that names the path. *)
Lemma pending_covers (m : gmap string node) (file : list (string * string))
    (key item : string) :
  (key, item) ∈ file -> Str.str_in "version" key = false ->
  is_file m item = false ->
  exists key', (key', item) ∈ pending m file.
Proof.
  intros Hin Hk Hf. apply (first_per_path_covers [] _ key).
  - apply list_elem_of_In, List.filter_In. split; [by apply list_elem_of_In|].
    unfold needs_fetch. simpl. by rewrite Hk, Hf.
  - apply not_elem_of_nil.
Qed.

Lemma rmtree_under (d q : string) (m : gmap string node) :
  under d q = true -> rmtree d m !! q = None.
Proof.
  intros Hu. unfold rmtree. apply map_lookup_filter_None. right.
  intros x _. simpl. by rewrite Hu.
Qed.

Lemma rmtree_not_under (d q : string) (m : gmap string node) :
  under d q = false -> rmtree d m !! q = m !! q.
Proof.
  intros Hu. unfold rmtree. destruct (m !! q) as [x|] eqn:Hq.
  - apply map_lookup_filter_Some. by split.
  - apply map_lookup_filter_None. by left.
Qed.

(** The loop started on the disk as it is. *)
Lemma download_missing_run (remote : string -> option reply) (base : string)
    (s3_file : gmap string string) (file : list (string * string))
    (w : World) (r : result unit) (w' : World) :
  download_missing remote base s3_file file w = (r, w') ->
  exists evs fetched rest,
    trace w' = trace w ++ evs /\
    List.filter is_text_open evs = [] /\
    (forall q, (forall k, (k, q) ∈ file -> Str.str_in "version" k = true) ->
               file_at (fs w') q = file_at (fs w) q) /\
    pending (fs w) file = fetched ++ rest /\
    Forall2 (fetched_from s3_file) fetched (gets evs) /\
    (r = Ok tt -> rest = []).
Proof.
  intros Hrun.
  destruct (download_missing_effect remote base s3_file (fs w) file [] w r w')
    as (evs & fetched & rest & Htr & Htxt & Hframe & _ & Hplan & Hdone & Hok);
    [|done|].
  - intros q. rewrite bool_decide_eq_false_2; [done|]. apply not_elem_of_nil.
  - exists evs, fetched, rest. repeat split; try done. intros Hr. by destruct (Hok Hr).
Qed.

(** Lines 97-105 from a disk [fs w0]: whatever the outcome, the URLs
    requested are those of an initial part of the plan; on normal return the
    whole plan has been fetched and the marker holds the expected version. *)
Lemma download_phase_effect (remote : string -> option reply) (base version : string)
    (s3_file : gmap string string) (file : list (string * string))
    (w0 : World) (r : result unit) (w' : World) :
  (download_missing remote base s3_file file;; write_marker file version) w0 = (r, w') ->
  exists evs fetched rest,
    trace w' = trace w0 ++ evs /\
    pending (fs w0) file = fetched ++ rest /\
    Forall2 (fetched_from s3_file) fetched (gets evs) /\
    (r = Ok tt ->
     rest = [] /\
     exists v, assoc file "version" = Some v /\ file_at (fs w') version = Some v).
Proof.
  intros Hrun.
  apply bind_inv in Hrun as [([] & w1 & Hloop & Hmark)|(e & Hloop & ->)].
  - destruct (download_missing_run _ _ _ _ _ _ _ Hloop)
      as (evs1 & fetched & rest & Htr1 & _ & _ & Hplan & Hdone & Hok1).
    destruct (write_marker_effect _ _ _ _ _ Hmark) as (evs2 & Htr2 & Hg2 & Hok2).
    exists (evs1 ++ EOpen Text version :: evs2), fetched, rest. repeat split.
    + by rewrite Htr2, Htr1, <- app_assoc.
    + done.
    + rewrite gets_app. simpl. by rewrite Hg2, app_nil_r.
    + by apply Hok1.
    + match goal with Hr : _ = Ok tt |- _ =>
        destruct (Hok2 Hr) as (v & Hv & Hfile & _) end.
      by exists v.
  - destruct (download_missing_run _ _ _ _ _ _ _ Hloop)
      as (evs1 & fetched & rest & Htr1 & _ & _ & Hplan & Hdone & _).
    by exists evs1, fetched, rest.
Qed.

(** C2 (as amended). With no Version Marker file, a validating call requests
    only entries of its plan: in manifest order and once per path, the entries
    whose key does not contain "version" and whose path was not a regular
    file.  A call that returns normally has requested the whole plan, each
    entry from its remote locator.  An entry whose file is already on disk is
    not on the plan; every other entry to download has its path on it. *)
Theorem check_file_no_marker (remote : string -> option reply)
    (file : list (string * string)) (s3_file : gmap string string)
    (w : World) (model : string) (r : result unit) (w' : World) :
  assoc file "model" = Some model ->
  is_file (fs w) (Str.dirname model +:+ "/version") = false ->
  check_file remote file s3_file true w = (r, w') ->
  exists evs fetched rest,
    trace w' = trace w ++ evs /\
    pending (fs w) file = fetched ++ rest /\
    Forall2 (fetched_from s3_file) fetched (gets evs) /\
    (r = Ok tt -> rest = []) /\
    (forall key item, is_file (fs w) item = true -> (key, item) ∉ pending (fs w) file) /\
    (forall key item, (key, item) ∈ file -> Str.str_in "version" key = false ->
       is_file (fs w) item = false -> exists key', (key', item) ∈ pending (fs w) file).
Proof.
  intros Hm Hf Hrun. rewrite (check_file_validate _ _ _ _ _ Hm) in Hrun.
  rewrite (bind_ok _ _ _ _ _ (stale_or_missing_no_marker _ _ _ _ Hf)) in Hrun.
  destruct (download_phase_effect _ _ _ _ _ _ _ _ Hrun)
    as (evs & fetched & rest & Htr & Hplan & Hdone & Hok).
  exists evs, fetched, rest. repeat split; try done.
  - intros Hr. by destruct (Hok Hr).
  - intros key item. apply pending_not_present.
  - intros key item. apply pending_covers.
Qed.

(** C2 (as stated) fails: the marker is absent, the model file is on disk,
    and the call returns without requesting anything, although "model" is a
    key that does not contain "version". *)
Lemma check_file_no_marker_present_not_fetched :
  is_file Scenario.unmarked "a/version" = false /\
  assoc Scenario.manifest "model" = Some "a/m.pb" /\
  Str.str_in "version" "model" = false /\
  is_file Scenario.unmarked "a/m.pb" = true /\
  (check_file Scenario.serving Scenario.manifest Scenario.s3_file true
     (Scenario.start Scenario.unmarked)).1 = Ok tt /\
  trace (check_file Scenario.serving Scenario.manifest Scenario.s3_file true
           (Scenario.start Scenario.unmarked)).2
  = [EOpen Text "a/version"; EWrite "a/version" "1.0"].
Proof. vm_compute. repeat split; reflexivity. Qed.

Lemma check_file_no_marker_witness :
  exists evs,
    trace (check_file Scenario.serving Scenario.manifest Scenario.s3_file true
             (Scenario.start ∅)).2 = [] ++ evs /\
    gets evs = ["https://f000.backblazeb2.com/file/malaya-model/v1/m.pb"].
Proof.
  destruct (check_file Scenario.serving Scenario.manifest Scenario.s3_file true
              (Scenario.start ∅)) as [r w'] eqn:Hrun.
  assert (is_file (fs (Scenario.start ∅)) (Str.dirname "a/m.pb" +:+ "/version")
          = false) as Hf by (vm_compute; reflexivity).
  destruct (check_file_no_marker Scenario.serving Scenario.manifest
              Scenario.s3_file (Scenario.start ∅) "a/m.pb" r w'
              eq_refl Hf Hrun)
    as (evs & fetched & rest & Htr & Hplan & Hdone & Hok & _).
  exists evs. split; [done|].
  assert (r = Ok tt) as Hr by (by vm_compute in Hrun; injection Hrun as <- _).
  rewrite (Hok Hr), app_nil_r in Hplan. subst fetched. vm_compute in Hdone.
  inversion Hdone as [|kv u l l' (loc & Hloc & ->) Hrest]; subst.
  inversion Hrest; subst. vm_compute in Hloc. by injection Hloc as <-.
Defined.

(** C4 (as amended). With a Version Marker that does not contain the
    expected version, a validating call first announces and performs the
    deletion of the cache directory (nothing at or below it is left), and only
    then runs the download loop on what is left of the disk.  It requests
    only entries of its plan: in manifest order and once per path, the entries
    whose key does not contain "version" and whose path was not a regular
    file after the deletion; a call that returns normally has requested the
    whole plan.  Every entry to download that lies inside the cache directory
    has its path on the plan; one that is a regular file elsewhere is not on
    it. *)
Theorem check_file_stale_marker (remote : string -> option reply)
    (file : list (string * string)) (s3_file : gmap string string)
    (w : World) (model v content : string) (r : result unit) (w' : World) :
  assoc file "model" = Some model ->
  assoc file "version" = Some v ->
  file_at (fs w) (Str.dirname model +:+ "/version") = Some content ->
  Str.str_in v content = false ->
  check_file remote file s3_file true w = (r, w') ->
  exists evs fetched rest,
    trace w' = trace w
               ++ [EPrint ("Found old version of " +:+ Str.dirname model +:+ ", deleting..");
                   ERmtree (Str.dirname model); EPrint "Done."]
               ++ evs /\
    (forall q, under (Str.dirname model) q = true ->
               rmtree (Str.dirname model) (fs w) !! q = None) /\
    pending (rmtree (Str.dirname model) (fs w)) file = fetched ++ rest /\
    Forall2 (fetched_from s3_file) fetched (gets evs) /\
    (r = Ok tt -> rest = []) /\
    (forall key item,
       (key, item) ∈ file -> Str.str_in "version" key = false ->
       under (Str.dirname model) item = true ->
       exists key', (key', item) ∈ pending (rmtree (Str.dirname model) (fs w)) file) /\
    (forall key item,
       is_file (rmtree (Str.dirname model) (fs w)) item = true ->
       (key, item) ∉ pending (rmtree (Str.dirname model) (fs w)) file).
Proof.
  intros Hm Hv Hc Hin Hrun. rewrite (check_file_validate _ _ _ _ _ Hm) in Hrun.
  rewrite (bind_ok _ _ _ _ _ (stale_or_missing_stale _ _ _ _ _ _ Hc Hv Hin)) in Hrun.
  destruct (download_phase_effect _ _ _ _ _ _ _ _ Hrun)
    as (evs & fetched & rest & Htr & Hplan & Hdone & Hok).
  simpl in Htr, Hplan. exists evs, fetched, rest.
  split; [by rewrite Htr, <- app_assoc|]. repeat split; try done.
  - intros q. apply rmtree_under.
  - intros Hr. by destruct (Hok Hr).
  - intros key item Hkin Hk Hu. apply (pending_covers _ _ key); [done..|].
    unfold is_file. by rewrite rmtree_under.
  - intros key item. apply pending_not_present.
Qed.

(** C4 (as stated) fails: the marker says "0.9", the cache directory [a] is
    deleted and the model fetched again, but the vocabulary of the manifest,
    a regular file in directory [b], is not requested. *)
Lemma check_file_stale_marker_keeps_outside_file :
  file_at (Scenario.cached2 "0.9") "a/version" = Some "0.9" /\
  Str.str_in "1.0" "0.9" = false /\
  Str.str_in "version" "vocab" = false /\
  (check_file Scenario.serving Scenario.manifest2 Scenario.s3_file2 true
     (Scenario.start (Scenario.cached2 "0.9"))).1 = Ok tt /\
  trace (check_file Scenario.serving Scenario.manifest2 Scenario.s3_file2 true
           (Scenario.start (Scenario.cached2 "0.9"))).2
  = [EPrint "Found old version of a, deleting.."; ERmtree "a"; EPrint "Done.";
     EPrint "downloading frozen a model";
     EGet "https://f000.backblazeb2.com/file/malaya-model/v1/m.pb";
     EMakedirs "a"; EOpen Binary "a/m.pb"; EWrite "a/m.pb" "wei"; EWrite "a/m.pb" "ghts";
     EOpen Text "a/version"; EWrite "a/version" "1.0"].
Proof. vm_compute. repeat split; reflexivity. Qed.

Lemma check_file_stale_marker_witness :
  exists evs,
    trace (check_file Scenario.serving Scenario.manifest Scenario.s3_file true
             (Scenario.start (Scenario.cached "0.9"))).2
    = [] ++ [EPrint "Found old version of a, deleting.."; ERmtree "a"; EPrint "Done."]
         ++ evs /\
    exists key', (key', "a/m.pb")
      ∈ pending (rmtree "a" (Scenario.cached "0.9")) Scenario.manifest.
Proof.
  destruct (check_file Scenario.serving Scenario.manifest Scenario.s3_file true
              (Scenario.start (Scenario.cached "0.9"))) as [r w'] eqn:Hrun.
  assert (file_at (fs (Scenario.start (Scenario.cached "0.9")))
            (Str.dirname "a/m.pb" +:+ "/version") = Some "0.9") as Hc
    by (vm_compute; reflexivity).
  destruct (check_file_stale_marker Scenario.serving Scenario.manifest
              Scenario.s3_file (Scenario.start (Scenario.cached "0.9"))
              "a/m.pb" "1.0" "0.9" r w' eq_refl eq_refl Hc eq_refl Hrun)
    as (evs & fetched & rest & Htr & _ & _ & _ & _ & Hcov & _).
  exists evs. split; [done|].
  apply (Hcov "model" "a/m.pb"); [by left|reflexivity|reflexivity].
Defined.

(** C3 (as amended). After a validating call that returns normally the
    Version Marker is a regular file whose content contains the expected
    version string; the content is exactly that string whenever the call
    wrote the marker, and otherwise the call changed nothing at all. *)
Theorem marker_after_check_file (remote : string -> option reply)
    (file : list (string * string)) (s3_file : gmap string string)
    (w w' : World) :
  check_file remote file s3_file true w = (Ok tt, w') ->
  exists model v content,
    assoc file "model" = Some model /\
    assoc file "version" = Some v /\
    file_at (fs w') (Str.dirname model +:+ "/version") = Some content /\
    Str.str_in v content = true /\
    (content = v \/ w' = w).
Proof.
  intros Hrun. destruct (assoc file "model") as [model|] eqn:Hm.
  2: { by rewrite (check_file_validate_no_model _ _ _ _ Hm) in Hrun. }
  rewrite (check_file_validate _ _ _ _ _ Hm) in Hrun.
  apply bind_inv in Hrun as [(download & w0 & Hdec & Hrun)|(e & _ & ?)]; [|done].
  destruct download.
  - destruct (download_phase_effect _ _ _ _ _ _ _ _ Hrun)
      as (evs & fetched & rest & _ & _ & _ & Hok).
    destruct (Hok eq_refl) as (_ & v & Hv & Hfile).
    exists model, v, v. repeat split; try done; [apply str_in_refl|by left].
  - injection Hrun as <-.
    destruct (stale_or_missing_effect _ _ _ _ _ _ Hdec) as (evs & _ & _ & _ & Hkeep).
    destruct (Hkeep eq_refl) as (-> & v & content & Hv & Hc & Hin & _).
    exists model, v, content. repeat split; try done. by right.
Qed.

(** C3 (as stated) fails: the marker reads "v1.0", which contains the
    expected "1.0"; every value of the manifest names an existing path (the
    working directory has an entry "1.0"); the call returns normally and the
    marker still reads "v1.0". *)
Lemma marker_not_exactly_version :
  assoc Scenario.manifest "version" = Some "1.0" /\
  (check_file Scenario.serving Scenario.manifest Scenario.s3_file true
     (Scenario.start (Scenario.cached_beside "v1.0"))).1 = Ok tt /\
  file_at (fs (check_file Scenario.serving Scenario.manifest Scenario.s3_file true
                 (Scenario.start (Scenario.cached_beside "v1.0"))).2) "a/version"
  = Some "v1.0" /\
  "v1.0" <> "1.0".
Proof. vm_compute. repeat split; [reflexivity..|discriminate]. Qed.

Lemma marker_after_check_file_witness :
  exists w',
    check_file Scenario.serving Scenario.manifest Scenario.s3_file true
      (Scenario.start ∅) = (Ok tt, w') /\
    exists model v content,
      assoc Scenario.manifest "model" = Some model /\
      assoc Scenario.manifest "version" = Some v /\
      file_at (fs w') (Str.dirname model +:+ "/version") = Some content /\
      Str.str_in v content = true /\
      (content = v \/ w' = Scenario.start ∅).
Proof.
  destruct (check_file Scenario.serving Scenario.manifest Scenario.s3_file true
              (Scenario.start ∅)) as [r w'] eqn:Hrun.
  assert (r = Ok tt) as -> by (by vm_compute in Hrun; injection Hrun as <- _).
  exists w'. split; [done|].
  exact (marker_after_check_file _ _ _ _ _ Hrun).
Defined.

(** ** A download that raises *)

Lemma download_missing_app (remote : string -> option reply) (base : string)
    (s3_file : gmap string string) (pre rest : list (string * string))
    (w w1 : World) :
  download_missing remote base s3_file pre w = (Ok tt, w1) ->
  download_missing remote base s3_file (pre ++ rest) w
  = download_missing remote base s3_file rest w1.
Proof.
  revert w. induction pre as [|[k p] pre IH]; intros w Hpre.
  - by injection Hpre as <-.
  - rewrite <- app_comm_cons, download_missing_cons.
    rewrite download_missing_cons in Hpre.
    destruct (Str.str_in "version" k); [by apply IH|].
    apply bind_inv in Hpre as [(b & w2 & H1 & Hpre)|(e & _ & ?)]; [|done].
    rewrite (bind_ok _ _ _ _ _ H1).
    apply bind_inv in Hpre as [(u & w3 & H2 & Hpre)|(e & _ & ?)]; [|done].
    rewrite (bind_ok _ _ _ _ _ H2). by apply IH.
Qed.

Lemma download_raises_loop (remote : string -> option reply) (base : string)
    (s3_file : gmap string string) (file : list (string * string))
    (w0 : World) (e : exn) (w2 : World) :
  download_raises remote base s3_file file w0 e w2 ->
  download_missing remote base s3_file file w0 = (Raise e, w2).
Proof.
  intros (pre & key & item & post & w1 & url & -> & Hpre & Hk & Hf & Hloc & Hdl).
  rewrite (download_missing_app _ _ _ _ _ _ _ Hpre), download_missing_cons, Hk.
  rewrite (bind_ok _ _ _ _ _ (isfile_run item w1)), Hf. simpl negb. cbv iota.
  apply bind_raise.
  apply bind_inv in Hdl as [(u & w3 & Hp & Hdl)|(e' & Hp & _)];
    [|by rewrite print_run in Hp].
  rewrite (bind_ok _ _ _ _ _ Hp). unfold getitem. rewrite Hloc.
  by rewrite (bind_ok _ _ w3 url w3).
Qed.

(** C5. In a validating run that has decided to download and in which the
    download of some entry raises [e]: [check_file] raises the same [e] and
    ends in the very state in which the download failed, so the marker is
    never opened for writing in that run (line 104 is not reached), and,
    unless the marker path is itself the path of an entry to download, the
    marker file reads what it read when the downloads began. *)
Theorem download_failure_propagates (remote : string -> option reply)
    (file : list (string * string)) (s3_file : gmap string string)
    (w : World) (model : string) (w0 : World) (e : exn) (w2 : World) :
  assoc file "model" = Some model ->
  stale_or_missing file (Str.dirname model) (Str.dirname model +:+ "/version") w
  = (Ok true, w0) ->
  download_raises remote (Str.dirname model) s3_file file w0 e w2 ->
  check_file remote file s3_file true w = (Raise e, w2) /\
  (exists evs, trace w2 = trace w ++ evs /\ List.filter is_text_open evs = []) /\
  ((forall key item, (key, item) ∈ file -> Str.str_in "version" key = false ->
                     item <> Str.dirname model +:+ "/version") ->
   file_at (fs w2) (Str.dirname model +:+ "/version")
   = file_at (fs w0) (Str.dirname model +:+ "/version")).
Proof.
  intros Hm Hdec Hraise. apply download_raises_loop in Hraise as Hloop.
  split; [|split].
  - rewrite (check_file_validate _ _ _ _ _ Hm), (bind_ok _ _ _ _ _ Hdec).
    by apply bind_raise.
  - destruct (stale_or_missing_effect _ _ _ _ _ _ Hdec) as (evs0 & Htr0 & _ & Ht0 & _).
    destruct (download_missing_run _ _ _ _ _ _ _ Hloop)
      as (evs1 & fetched & rest & Htr1 & Ht1 & _).
    exists (evs0 ++ evs1). split.
    + by rewrite Htr1, Htr0, <- app_assoc.
    + by rewrite List.filter_app, Ht0, Ht1.
  - intros Hdistinct.
    destruct (download_missing_run _ _ _ _ _ _ _ Hloop)
      as (evs1 & fetched & rest & _ & _ & Hframe & _).
    apply Hframe. intros k Hin.
    destruct (Str.str_in "version" k) eqn:Hk; [done|].
    by destruct (Hdistinct _ _ Hin Hk).
Qed.

Lemma download_failure_propagates_witness :
  check_file Scenario.unreachable Scenario.manifest Scenario.s3_file true
    (Scenario.start ∅)
  = (Raise (RequestError "https://f000.backblazeb2.com/file/malaya-model/v1/m.pb"),
     mkWorld ∅ [EPrint "downloading frozen a model";
                EGet "https://f000.backblazeb2.com/file/malaya-model/v1/m.pb"]).
Proof.
  apply (download_failure_propagates Scenario.unreachable Scenario.manifest
           Scenario.s3_file (Scenario.start ∅) "a/m.pb" (Scenario.start ∅)).
  - reflexivity.
  - reflexivity.
  - exists [], "model", "a/m.pb", [("version", "1.0")], (Scenario.start ∅), "v1/m.pb".
    repeat split; reflexivity.
Defined.

(** ** A valid cache *)

(** When every entry to download is a regular file the loop does nothing. *)
Lemma download_missing_all_present (remote : string -> option reply) (base : string)
    (s3_file : gmap string string) (file : list (string * string)) (w : World) :
  ~ some_absent (fs w) file ->
  download_missing remote base s3_file file w = (Ok tt, w).
Proof.
  induction file as [|[k p] rest IH]; intros Hall; [done|].
  assert (~ some_absent (fs w) rest) as Hrest.
  { intros (k' & p' & Hin & Hk' & Hf'). apply Hall.
    exists k', p'. split; [by right|done]. }
  rewrite download_missing_cons.
  destruct (Str.str_in "version" k) eqn:Hk; [by apply IH|].
  rewrite (bind_ok _ _ _ _ _ (isfile_run p w)).
  destruct (is_file (fs w) p) eqn:Hf.
  - simpl negb. cbv iota. rewrite (bind_ok _ _ w tt w); [by apply IH|done].
  - destruct Hall. exists k, p. split; [by left|done].
Qed.

Lemma assoc_elem_of (d : list (string * string)) (k v : string) :
  assoc d k = Some v -> (k, v) ∈ d.
Proof.
  induction d as [|[k' v'] d IH]; simpl; [done|].
  case_bool_decide as Hk.
  - intros [= ->]. subst. by left.
  - intros H. right. by apply IH.
Qed.

(** On a valid cache (every file there, the marker containing the expected
    version) the call still opens the marker for writing, unless the expected
    version string happens to name an existing path: the loop of lines 90-93
    tests the value of the "version" key like a file. *)
Lemma valid_cache_opens_marker (remote : string -> option reply)
    (file : list (string * string)) (s3_file : gmap string string)
    (w : World) (model v content : string) :
  assoc file "model" = Some model ->
  assoc file "version" = Some v ->
  file_at (fs w) (Str.dirname model +:+ "/version") = Some content ->
  Str.str_in v content = true ->
  ~ some_absent (fs w) file ->
  path_exists (fs w) v = false ->
  exists evs,
    trace (check_file remote file s3_file true w).2
    = trace w ++ EOpen Text (Str.dirname model +:+ "/version") :: evs.
Proof.
  intros Hm Hv Hc Hin Hall Hmiss.
  pose proof (assoc_elem_of _ _ _ Hv) as Hkv.
  rewrite (check_file_validate _ _ _ _ _ Hm).
  rewrite (bind_ok _ _ _ _ _ (stale_or_missing_current _ _ _ _ _ _ Hc Hv Hin)).
  replace (existsb _ file) with true.
  2: { symmetry. apply existsb_exists. exists ("version", v).
       split; [by apply list_elem_of_In|]. simpl. by rewrite Hmiss. }
  rewrite (bind_ok _ _ _ _ _ (download_missing_all_present _ _ _ _ _ Hall)).
  destruct (write_marker file (Str.dirname model +:+ "/version") w) as [r w'] eqn:Hw.
  destruct (write_marker_effect _ _ _ _ _ Hw) as (evs & Htr & _).
  by exists evs.
Qed.

(** When every value of the manifest, the version string included, names an
    existing path, a valid cache is left alone. *)
Lemma valid_cache_untouched (remote : string -> option reply)
    (file : list (string * string)) (s3_file : gmap string string)
    (w : World) (model v content : string) :
  assoc file "model" = Some model ->
  assoc file "version" = Some v ->
  file_at (fs w) (Str.dirname model +:+ "/version") = Some content ->
  Str.str_in v content = true ->
  (forall key item, (key, item) ∈ file -> path_exists (fs w) item = true) ->
  check_file remote file s3_file true w = (Ok tt, w).
Proof.
  intros Hm Hv Hc Hin Hall.
  rewrite (check_file_validate _ _ _ _ _ Hm).
  rewrite (bind_ok _ _ _ _ _ (stale_or_missing_current _ _ _ _ _ _ Hc Hv Hin)).
  replace (existsb _ file) with false; [done|].
  symmetry. apply not_true_iff_false. intros Hex.
  apply existsb_exists in Hex as ([k p] & Hkp & Hp).
  apply list_elem_of_In in Hkp. simpl in Hp. by rewrite (Hall _ _ Hkp) in Hp.
Qed.

(** C1, the code at a valid cache.  Marker "1.0", expected "1.0", the model
    on disk: the call requests nothing but truncates and rewrites the
    marker.  With a marker "v1.0" (which contains "1.0") the marker's content
    changes to "1.0". *)
Theorem valid_cache_marker_rewritten :
  ~ some_absent (Scenario.cached "1.0") Scenario.manifest /\
  check_file Scenario.serving Scenario.manifest Scenario.s3_file true
    (Scenario.start (Scenario.cached "1.0"))
  = (Ok tt, mkWorld (Scenario.cached "1.0")
              [EOpen Text "a/version"; EWrite "a/version" "1.0"]) /\
  file_at (Scenario.cached "v1.0") "a/version" = Some "v1.0" /\
  file_at (fs (check_file Scenario.serving Scenario.manifest Scenario.s3_file true
                 (Scenario.start (Scenario.cached "v1.0"))).2) "a/version"
  = Some "1.0".
Proof.
  split.
  - intros Habs. apply forallb_false_absent in Habs. vm_compute in Habs. done.
  - vm_compute. repeat split; reflexivity.
Qed.

(** ** [add_neutral] *)

Section AddNeutral.
Import Numpy.

Lemma lookup_snoc_new (h : list ndarray) (a : ndarray) :
  (h ++ [a]) !! length h = Some a.
Proof. by rewrite lookup_app_r, Nat.sub_diag. Qed.

Lemma lookup_snoc_old (h : list ndarray) (a c : ndarray) (l : nat) :
  h !! l = Some c -> (h ++ [a]) !! l = Some c.
Proof. intros H. by apply lookup_app_l_Some. Qed.

Lemma load_run (h : list ndarray) (x : nat) (a : ndarray) :
  h !! x = Some a -> load x h = (Ok a, h).
Proof. intros H. unfold load. by rewrite H. Qed.

(** An operation that reads [x] and allocates [f] of it. *)
Lemma unary_run (f : ndarray -> ndarray) (h : list ndarray) (x : nat) (a : ndarray) :
  h !! x = Some a ->
  (a <- load x; alloc (f a)) h = (Ok (length h), h ++ [f a]).
Proof. intros H. by rewrite (bind_ok _ _ _ _ _ (load_run _ _ _ H)). Qed.

Lemma binary_run (f : ndarray -> ndarray -> ndarray) (h : list ndarray)
    (x y : nat) (a b : ndarray) :
  h !! x = Some a -> h !! y = Some b ->
  (a <- load x; b <- load y; alloc (f a b)) h = (Ok (length h), h ++ [f a b]).
Proof.
  intros Hx Hy. rewrite (bind_ok _ _ _ _ _ (load_run _ _ _ Hx)).
  by rewrite (bind_ok _ _ _ _ _ (load_run _ _ _ Hy)).
Qed.

Lemma zip_with_map_same {A B C D} (f : B -> C -> D) (g : A -> B) (k : A -> C)
    (l : list A) :
  zip_with f (map g l) (map k l) = map (fun x => f (g x) (k x)) l.
Proof. induction l as [|x l IH]; simpl; [done|]. by rewrite IH. Qed.

Lemma sum_app (l1 l2 : list Qc) : sum (l1 ++ l2) = (sum l1 + sum l2)%Qc.
Proof.
  induction l1 as [|x l1 IH]; simpl.
  - by rewrite Qcplus_0_l.
  - rewrite IH. ring.
Qed.

(** Appending what is missing to 1 makes the row sum to 1. *)
Lemma sum_completed (r : list Qc) : sum (r ++ [(1 - sum r)%Qc]) = 1%Qc.
Proof. rewrite sum_app. simpl. ring. Qed.

(** The array [add_neutral] builds from the array [a]. *)
Lemma add_neutral_run (h : list ndarray) (x : nat) (a : ndarray) (alpha : Qc) (n : nat) :
  h !! x = Some a -> ncols a = S n ->
  exists mid f,
    add_neutral x alpha h
    = (Ok (length (h ++ mid)),
       (h ++ mid)
       ++ [mkArray (ncols a + 1)
             (map (fun r => map f r ++ [(1 - sum (map f r))%Qc]) (rows a))]).
Proof.
  intros Hx Hn. unfold add_neutral, copy, shape1, sub_scalar, scalar_mul,
    maximum, div_scalar, sum_axis1, scalar_sub, concatenate1.
  set (d := (1 / Qc_of_Z (Z.of_nat (S n)))%Qc).
  rewrite (bind_ok _ _ _ _ _ (unary_run (fun a => a) _ _ _ Hx)).
  set (h1 := h ++ [a]).
  assert (h1 !! length h = Some a) as H0 by apply lookup_snoc_new.
  rewrite (bind_ok _ _ _ _ _ (bind_ok _ _ _ _ _ (load_run _ _ _ H0))).
  rewrite Hn. unfold one_over.
  rewrite (bind_ok _ _ h1 d h1) by done.
  rewrite (bind_ok _ _ _ _ _ (unary_run (map_entries (fun v => v - d)%Qc) _ _ _ H0)).
  set (A1 := map_entries (fun v => (v - d)%Qc) a). set (h2 := h1 ++ [A1]).
  assert (h2 !! length h1 = Some A1) as H1 by apply lookup_snoc_new.
  assert (h2 !! length h = Some a) as H0' by by apply lookup_snoc_old.
  rewrite (bind_ok _ _ _ _ _ (unary_run (map_entries (fun v => alpha * v)%Qc) _ _ _ H0')).
  set (A2 := map_entries (fun v => (alpha * v)%Qc) a). set (h3 := h2 ++ [A2]).
  assert (h3 !! length h2 = Some A2) as H2 by apply lookup_snoc_new.
  assert (h3 !! length h1 = Some A1) as H1' by by apply lookup_snoc_old.
  rewrite (bind_ok _ _ _ _ _
             (binary_run (fun a b => mkArray (ncols a)
                            (zip_with (zip_with Qcmax) (rows a) (rows b)))
                _ _ _ _ _ H1' H2)).
  set (A3 := mkArray (ncols A1) (zip_with (zip_with Qcmax) (rows A1) (rows A2))).
  set (h4 := h3 ++ [A3]).
  assert (h4 !! length h3 = Some A3) as H3 by apply lookup_snoc_new.
  rewrite (bind_ok _ _ _ _ _ (unary_run (map_entries (fun v => v / d)%Qc) _ _ _ H3)).
  set (A4 := map_entries (fun v => (v / d)%Qc) A3). set (h5 := h4 ++ [A4]).
  assert (h5 !! length h4 = Some A4) as H4 by apply lookup_snoc_new.
  rewrite (bind_ok _ _ _ _ _
             (unary_run (fun a => mkArray 1 (map (fun r => [sum r]) (rows a))) _ _ _ H4)).
  set (A5 := mkArray 1 (map (fun r => [sum r]) (rows A4))). set (h6 := h5 ++ [A5]).
  assert (h6 !! length h5 = Some A5) as H5 by apply lookup_snoc_new.
  assert (h6 !! length h4 = Some A4) as H4' by by apply lookup_snoc_old.
  rewrite (bind_ok _ _ _ _ _ (unary_run (map_entries (fun v => 1 - v)%Qc) _ _ _ H5)).
  set (A6 := map_entries (fun v => (1 - v)%Qc) A5). set (h7 := h6 ++ [A6]).
  assert (h7 !! length h6 = Some A6) as H6 by apply lookup_snoc_new.
  assert (h7 !! length h4 = Some A4) as H4'' by by apply lookup_snoc_old.
  rewrite (binary_run (fun a b => mkArray (ncols a + ncols b)
                         (zip_with app (rows a) (rows b))) _ _ _ _ _ H4'' H6).
  exists [a; A1; A2; A3; A4; A5; A6],
         (fun v => (Qcmax (v - d) (alpha * v) / d)%Qc).
  assert (h7 = h ++ [a; A1; A2; A3; A4; A5; A6]) as <-.
  { unfold h7, h6, h5, h4, h3, h2, h1. by rewrite <- !app_assoc. }
  do 3 f_equal.
  assert (rows A4 = map (map (fun v => (Qcmax (v - d) (alpha * v) / d)%Qc)) (rows a))
    as Hrows.
  { unfold A4, A3, A1, A2, map_entries. simpl.
    rewrite zip_with_map_same, map_map. apply map_ext. intros r.
    by rewrite zip_with_map_same, map_map. }
  assert (ncols A4 = S n) as Hcols by done.
  clearbody A4. unfold A6, A5, map_entries. simpl. rewrite Hcols. f_equal.
  rewrite Hrows, !map_map. simpl. by rewrite zip_with_map_same.
Qed.

End AddNeutral.

(** C10. For an array [x] of at least one column, [add_neutral] returns a
    newly allocated array (a reference that did not exist before) with as
    many rows as [x] and exactly one more column, every row of which sums to
    exactly 1 over the rationals; every array that was on the heap before the
    call, [x] among them, is still there unchanged.  (Without a column the
    call raises [ZeroDivisionError].) *)
Theorem add_neutral_rows_sum_to_one (h : list Numpy.ndarray) (x : nat)
    (a : Numpy.ndarray) (alpha : Qc) :
  h !! x = Some a ->
  Numpy.well_shaped a ->
  1 <= Numpy.ncols a ->
  exists r b h',
    Numpy.add_neutral x alpha h = (Ok r, h') /\
    h !! r = None /\ h' !! r = Some b /\
    (forall l c, h !! l = Some c -> h' !! l = Some c) /\
    Numpy.ncols b = S (Numpy.ncols a) /\
    length (Numpy.rows b) = length (Numpy.rows a) /\
    Numpy.well_shaped b /\
    Forall (fun row => Numpy.sum row = 1%Qc) (Numpy.rows b).
Proof.
  intros Hx Hwf Hn. destruct (Numpy.ncols a) as [|n] eqn:Hc; [lia|].
  destruct (add_neutral_run h x a alpha n Hx Hc) as (mid & f & Hrun).
  eexists _, _, _. split; [exact Hrun|]. rewrite Hc in *.
  split; [|split; [|split; [|split; [|split; [|split]]]]].
  - apply lookup_ge_None. rewrite length_app. lia.
  - apply lookup_snoc_new.
  - intros l c Hl. rewrite <- app_assoc. by apply lookup_app_l_Some.
  - simpl. lia.
  - simpl. by rewrite length_map.
  - unfold Numpy.well_shaped in *. simpl. apply Forall_forall.
    intros row Hrow. apply list_elem_of_In, in_map_iff in Hrow as (r0 & <- & Hin).
    rewrite length_app, length_map. simpl.
    rewrite Forall_forall in Hwf. rewrite (Hwf r0); [lia|by apply list_elem_of_In].
  - simpl. apply Forall_forall. intros row Hrow.
    apply list_elem_of_In, in_map_iff in Hrow as (r0 & <- & _).
    apply sum_completed.
Qed.

Lemma add_neutral_rows_sum_to_one_witness :
  exists r b h',
    Numpy.add_neutral 0 Numpy.alpha_default
      [Numpy.mkArray 2 [[Q2Qc (7 # 10); Q2Qc (3 # 10)]; [Q2Qc (1 # 2); Q2Qc (1 # 2)]]]
    = (Ok r, h') /\
    h' !! r = Some b /\
    h' !! 0 = Some (Numpy.mkArray 2
                      [[Q2Qc (7 # 10); Q2Qc (3 # 10)]; [Q2Qc (1 # 2); Q2Qc (1 # 2)]]) /\
    Numpy.ncols b = 3 /\
    Forall (fun row => Numpy.sum row = 1%Qc) (Numpy.rows b).
Proof.
  destruct (add_neutral_rows_sum_to_one
              [Numpy.mkArray 2 [[Q2Qc (7 # 10); Q2Qc (3 # 10)];
                                [Q2Qc (1 # 2); Q2Qc (1 # 2)]]]
              0 _ Numpy.alpha_default eq_refl)
    as (r & b & h' & Hrun & _ & Hb & Hold & Hcols & _ & _ & Hsum).
  - repeat constructor.
  - simpl. lia.
  - exists r, b, h'. repeat split; try done. by apply Hold.
Defined.

(** Without a column [1 / x.shape[1]] raises. *)
Lemma add_neutral_no_column (h : list Numpy.ndarray) (x : nat) (a : Numpy.ndarray)
    (alpha : Qc) :
  h !! x = Some a -> Numpy.ncols a = 0 ->
  Numpy.add_neutral x alpha h = (Raise ZeroDivisionError, h ++ [a]).
Proof.
  intros Hx Hc. unfold Numpy.add_neutral, Numpy.copy, Numpy.shape1.
  rewrite (bind_ok _ _ _ _ _ (unary_run (fun a => a) _ _ _ Hx)).
  rewrite (bind_ok _ _ _ _ _
             (bind_ok _ _ _ _ _ (load_run _ _ _ (lookup_snoc_new h a)))).
  by rewrite Hc.
Qed.

(** * Further properties of the module *)

(** ** [download_file]: every way it can end *)

Lemma ancestors_go_last (pre s : string) : (pre +:+ s) ∈ ancestors_go pre s.
Proof.
  revert pre. induction s as [|c s IH]; intros pre.
  - simpl. replace (pre +:+ "") with pre; [by left|].
    induction pre as [|a pre IHp]; [done|]. simpl. by f_equal.
  - simpl. apply elem_of_app. right.
    replace (pre +:+ String c s) with ((pre +:+ String c "") +:+ s); [apply IH|].
    clear IH. induction pre as [|a pre IHp]; [done|]. simpl. by f_equal.
Qed.

Lemma ancestors_self (d : string) : Str.nonempty d = true -> d ∈ ancestors d.
Proof. intros H. unfold ancestors. rewrite H. apply (ancestors_go_last "" d). Qed.

Lemma mkdirs_lookup (ds : list string) (m : gmap string node) (q : string) :
  q ∈ ds -> mkdirs ds m !! q = Some Dir.
Proof.
  induction ds as [|d ds IH]; [by intros H%elem_of_nil|].
  intros Hq. simpl. destruct (decide (d = q)) as [->|Hne].
  - by rewrite lookup_insert_eq.
  - rewrite lookup_insert_ne by done. apply IH.
    apply elem_of_cons in Hq as [->|Hq]; done.
Qed.

Lemma write_chunks_content (p c0 : string) (data : list string) (w : World) :
  file_at (fs w) p = Some c0 ->
  exists m',
    write_chunks p data w = (Ok tt, mkWorld m' (trace w ++ map (EWrite p) data)) /\
    m' !! p = Some (File (c0 +:+ joined data)) /\
    (forall q, q <> p -> m' !! q = fs w !! q).
Proof.
  revert c0 w. induction data as [|c rest IH]; intros c0 [m tr] Hc; simpl in Hc.
  - exists m. simpl. rewrite app_nil_r. split; [done|]. split; [|done].
    unfold file_at in Hc. destruct (m !! p) as [[c'|]|]; simplify_eq.
    f_equal. f_equal. clear. induction c0 as [|a c0 IHc]; [done|]. simpl. by f_equal.
  - destruct (IH (c0 +:+ c)
                (mkWorld (<[p := File (default "" (file_at m p) +:+ c)]> m)
                   (tr ++ [EWrite p c]))) as (m' & Hrun & Hp & Hframe).
    { simpl. unfold file_at at 1. rewrite lookup_insert_eq. by rewrite Hc. }
    exists m'. split; [|split].
    + change (write_chunks p (c :: rest)) with (write p c;; write_chunks p rest).
      rewrite (bind_ok _ _ _ tt
                 (mkWorld (<[p := File (default "" (file_at m p) +:+ c)]> m)
                    (tr ++ [EWrite p c]))) by done.
      rewrite Hrun. simpl. by rewrite <- app_assoc.
    + rewrite Hp. do 2 f_equal. simpl. clear.
      induction c0 as [|a c0 IHc]; [done|]. simpl. by f_equal.
    + intros q Hq. rewrite (Hframe q Hq). simpl. by rewrite lookup_insert_ne.
Qed.

(** The five ways a call of [download_file] ends, with the disk each leaves. *)
Lemma download_file_outcomes (remote : string -> option reply)
    (url filename : string) (w : World) (res : result unit) (w' : World) :
  download_file remote url filename w = (res, w') ->
  (remote (resolve url) = None /\
   res = Raise (RequestError (resolve url)) /\ fs w' = fs w) \/
  (exists r, remote (resolve url) = Some r /\ content_length r = None /\
             res = Raise (KeyError "content-length") /\ fs w' = fs w) \/
  (exists r n, remote (resolve url) = Some r /\ content_length r = Some n /\
     ((res = Raise (OSError (Str.dirname filename)) /\ fs w' = fs w /\
       (Str.nonempty (Str.dirname filename) = false \/
        existsb (is_file (fs w)) (ancestors (Str.dirname filename)) = true)) \/
      (Str.nonempty (Str.dirname filename) = true /\
       existsb (is_file (fs w)) (ancestors (Str.dirname filename)) = false /\
       ((res = Raise (OSError filename) /\
         fs w' = mkdirs (ancestors (Str.dirname filename)) (fs w) /\
         is_dir (fs w') filename = true) \/
        (res = (if intact r then Ok tt else Raise (RequestError url)) /\
         fs w' !! filename = Some (File (joined (chunks r))) /\
         fs w' !! Str.dirname filename = Some Dir /\
         (forall q, q <> filename ->
            fs w' !! q = mkdirs (ancestors (Str.dirname filename)) (fs w) !! q)))))).
Proof.
  unfold download_file. rewrite resolve_get. intros Hrun.
  apply bind_inv in Hrun as [(rep & w1 & Hget & Hrun)|(e & Hget & ->)].
  2: { left. pose proof (requests_get_effect _ _ _ _ _ Hget) as ->.
       unfold requests_get, emit, bind, ret, raise in Hget. simpl in Hget.
       destruct (remote (resolve url)); [done|]. by injection Hget as <-. }
  pose proof (requests_get_effect _ _ _ _ _ Hget) as ->.
  assert (remote (resolve url) = Some rep) as Hrep.
  { unfold requests_get, emit, bind, ret, raise in Hget. simpl in Hget.
    destruct (remote (resolve url)); [|done]. by injection Hget as <-. }
  right. apply bind_inv in Hrun as [(n & w1 & Hlen & Hrun)|(e & Hlen & ->)].
  2: { left. exists rep. destruct (content_length rep); [done|].
       by injection Hlen as <- <-. }
  right. destruct (content_length rep) as [n'|] eqn:Hcl; [|done].
  injection Hlen as <- <-. exists rep, n'. split; [done|]. split; [done|].
  set (d := Str.dirname filename) in *.
  apply bind_inv in Hrun as [([] & w2 & Hmk & Hrun)|(e & Hmk & ->)].
  2: { left. unfold makedirs, emit, get_fs, set_fs, bind, ret, raise in Hmk.
       simpl in Hmk. destruct (Str.nonempty d) eqn:Hne; simpl in Hmk.
       - destruct (existsb (is_file (fs w)) (ancestors d)) eqn:Hex; [|done].
         injection Hmk as <- <-. repeat split; try done. by right.
       - injection Hmk as <- <-. repeat split; try done. by left. }
  right.
  assert (fs w2 = mkdirs (ancestors d) (fs w) /\ Str.nonempty d = true /\
          existsb (is_file (fs w)) (ancestors d) = false) as (Hfs2 & Hne & Hex).
  { unfold makedirs, emit, get_fs, set_fs, bind, ret, raise in Hmk.
    simpl in Hmk. destruct (Str.nonempty d) eqn:Hne; simpl in Hmk; [|done].
    destruct (existsb (is_file (fs w)) (ancestors d)); [done|].
    by injection Hmk as <-. }
  split; [done|]. split; [done|].
  assert (fs w2 !! d = Some Dir) as Hd.
  { rewrite Hfs2. apply mkdirs_lookup. by apply ancestors_self. }
  apply bind_inv in Hrun as [([] & w3 & Hop & Hrun)|(e & Hop & ->)].
  2: { left. unfold open_w, emit, get_fs, set_fs, bind, ret, raise in Hop.
       simpl in Hop. destruct (is_dir (fs w2) filename) eqn:Hisd; simpl in Hop.
       - injection Hop as <- <-. simpl. by rewrite <- Hfs2.
       - assert (parent_ok (fs w2) filename = true) as Hpar.
         { unfold parent_ok. fold d. unfold is_dir at 1. rewrite Hd.
           by rewrite !orb_true_r. }
         by rewrite Hpar in Hop. }
  right.
  assert (fs w3 = <[filename := File ""]> (fs w2) /\ is_dir (fs w2) filename = false)
    as [Hfs3 Hnd].
  { unfold open_w, emit, get_fs, set_fs, bind, ret, raise in Hop.
    simpl in Hop. destruct (is_dir (fs w2) filename); simpl in Hop; [done|].
    destruct (parent_ok (fs w2) filename); simpl in Hop; [|done].
    by injection Hop as <-. }
  assert (filename <> d) as Hneq.
  { intros Heq. unfold is_dir in Hnd. by rewrite Heq, Hd in Hnd. }
  destruct (write_chunks_content filename "" (chunks rep) w3) as (m' & Hwr & Hfile & Hframe).
  { unfold file_at. by rewrite Hfs3, lookup_insert_eq. }
  rewrite (bind_ok _ _ _ _ _ Hwr) in Hrun.
  assert (res = (if intact rep then Ok tt else Raise (RequestError url)) /\ fs w' = m')
    as [-> ->].
  { destruct (intact rep); by injection Hrun as <- <-. }
  split; [done|]. split; [done|]. split.
  - rewrite Hframe by done. rewrite Hfs3, lookup_insert_ne by done. done.
  - intros q Hq. rewrite (Hframe q Hq), Hfs3, lookup_insert_ne by done.
    by rewrite Hfs2.
Qed.

(** X1. When [download_file] returns normally, the remote store answered
    with a complete stream, the file holds exactly the chunks of that stream
    one after the other (whatever it held before), and the directory of the
    file exists. *)
Theorem download_file_stores_stream (remote : string -> option reply)
    (url filename : string) (w w' : World) :
  download_file remote url filename w = (Ok tt, w') ->
  exists r,
    remote (resolve url) = Some r /\ intact r = true /\
    file_at (fs w') filename = Some (joined (chunks r)) /\
    is_dir (fs w') (Str.dirname filename) = true.
Proof.
  intros Hrun.
  destruct (download_file_outcomes _ _ _ _ _ _ Hrun)
    as [(_ & ? & _)|[(r & _ & _ & ? & _)|(r & n & Hr & _ & Hcase)]]; [done..|].
  destruct Hcase as [(? & _)|(_ & _ & [(? & _)|(Hres & Hfile & Hdir & _)])]; [done..|].
  exists r. unfold file_at, is_dir. rewrite Hfile, Hdir.
  destruct (intact r); done.
Qed.

Lemma download_file_stores_stream_witness :
  exists r,
    Scenario.serving (resolve "v1/m.pb") = Some r /\ intact r = true /\
    file_at (fs (download_file Scenario.serving "v1/m.pb" "a/m.pb"
                   (Scenario.start (Scenario.cached "1.0"))).2) "a/m.pb"
    = Some (joined (chunks r)) /\
    is_dir (fs (download_file Scenario.serving "v1/m.pb" "a/m.pb"
                  (Scenario.start (Scenario.cached "1.0"))).2) (Str.dirname "a/m.pb")
    = true.
Proof.
  destruct (download_file Scenario.serving "v1/m.pb" "a/m.pb"
              (Scenario.start (Scenario.cached "1.0"))) as [res w'] eqn:Hrun.
  assert (res = Ok tt) as -> by (by vm_compute in Hrun; injection Hrun as <- _).
  exact (download_file_stores_stream _ _ _ _ _ Hrun).
Defined.

(** X2. The disk is touched only after a reply that carries a
    [content-length] header has arrived: when the request itself raises, or
    the reply lacks the header, [download_file] raises having done nothing
    but the GET. *)
Theorem download_file_rejected_reply (remote : string -> option reply)
    (url filename : string) (w : World) :
  match remote (resolve url) with
  | None => True
  | Some r => content_length r = None
  end ->
  exists e,
    download_file remote url filename w
    = (Raise e, mkWorld (fs w) (trace w ++ [EGet (resolve url)])) /\
    e = match remote (resolve url) with
        | None => RequestError (resolve url)
        | Some _ => KeyError "content-length"
        end.
Proof.
  intros Hrej. unfold download_file. rewrite resolve_get.
  unfold requests_get, emit, bind, ret, raise. simpl.
  destruct (remote (resolve url)) as [r|]; [|by eexists].
  rewrite Hrej. by eexists.
Qed.

Lemma download_file_rejected_reply_witness :
  exists e,
    download_file Scenario.unreachable "v1/m.pb" "a/m.pb" (Scenario.start ∅)
    = (Raise e,
       mkWorld ∅ [EGet "https://f000.backblazeb2.com/file/malaya-model/v1/m.pb"]).
Proof.
  destruct (download_file_rejected_reply Scenario.unreachable "v1/m.pb" "a/m.pb"
              (Scenario.start ∅) I) as (e & Hrun & _).
  by exists e.
Defined.

(** X3. A file name without a directory part cannot be downloaded to:
    [os.makedirs('')] raises, so the call always ends in an exception and the
    disk is left as it was. *)
Theorem download_file_bare_name_raises (remote : string -> option reply)
    (url filename : string) (w : World) :
  Str.str_in "/" filename = false ->
  exists e w',
    download_file remote url filename w = (Raise e, w') /\ fs w' = fs w.
Proof.
  intros Hbare.
  assert (Str.dirname filename = "") as Hd.
  { unfold Str.dirname. by rewrite (upto_last_no_slash _ Hbare). }
  destruct (download_file remote url filename w) as [res w'] eqn:Hrun.
  destruct (download_file_outcomes _ _ _ _ _ _ Hrun)
    as [(_ & -> & Hfs)|[(r & _ & _ & -> & Hfs)|(r & n & _ & _ & Hcase)]];
    [by eexists _, _..|].
  rewrite Hd in Hcase.
  destruct Hcase as [(-> & Hfs & _)|(? & _)]; [by eexists _, _|done].
Qed.

Lemma download_file_bare_name_raises_witness :
  exists e w',
    download_file Scenario.serving "v1/m.pb" "m.pb" (Scenario.start ∅) = (Raise e, w') /\
    fs w' = fs (Scenario.start ∅).
Proof.
  apply (download_file_bare_name_raises Scenario.serving "v1/m.pb" "m.pb").
  reflexivity.
Defined.

(** X4. There is no cleaning up after a stream that breaks: when the remote
    store answered and [download_file] still raises a request error, the
    stream broke, and the file is left on disk holding the chunks received
    until then. *)
Theorem download_file_broken_stream (remote : string -> option reply)
    (url filename : string) (w : World) (r : reply) (u : string) (w' : World) :
  remote (resolve url) = Some r ->
  download_file remote url filename w = (Raise (RequestError u), w') ->
  intact r = false /\ u = url /\
  file_at (fs w') filename = Some (joined (chunks r)).
Proof.
  intros Hr Hrun.
  destruct (download_file_outcomes _ _ _ _ _ _ Hrun)
    as [(Hnone & _)|[(r' & _ & _ & ? & _)|(r' & n & Hr' & _ & Hcase)]];
    [congruence|done|].
  rewrite Hr in Hr'. injection Hr' as <-.
  destruct Hcase as [(? & _)|(_ & _ & [(? & _)|(Hres & Hfile & _)])]; [done..|].
  unfold file_at. rewrite Hfile. destruct (intact r); [done|].
  by injection Hres as ->.
Qed.

Lemma download_file_broken_stream_witness :
  file_at (fs (download_file (fun _ => Some (mkReply (Some 7) ["wei"] false))
                 "v1/m.pb" "a/m.pb" (Scenario.start ∅)).2) "a/m.pb"
  = Some (joined ["wei"]).
Proof.
  destruct (download_file (fun _ => Some (mkReply (Some 7) ["wei"] false))
              "v1/m.pb" "a/m.pb" (Scenario.start ∅)) as [res w'] eqn:Hrun.
  assert (res = Raise (RequestError "v1/m.pb")) as ->
    by (by vm_compute in Hrun; injection Hrun as <- _).
  by destruct (download_file_broken_stream _ _ _ _ _ _ _ eq_refl Hrun) as (_ & _ & ?).
Defined.

(** ** [check_file]: more on the validating branch *)

Lemma prefix_steps_keep (p : string) (data : list string) (evs : list event) :
  evs `prefix_of` download_steps p data -> List.filter is_rmtree evs = [].
Proof.
  assert (List.filter is_rmtree (download_steps p data) = []) as Hall.
  { unfold download_steps. simpl. induction data as [|c rest IH]; simpl; auto. }
  intros [k Hk]. rewrite Hk, List.filter_app in Hall. by apply app_eq_nil in Hall as [? _].
Qed.

(** The download loop deletes nothing. *)
Lemma download_missing_keeps (remote : string -> option reply) (base : string)
    (s3_file : gmap string string) (file : list (string * string)) :
  forall (w : World) (r : result unit) (w' : World),
  download_missing remote base s3_file file w = (r, w') ->
  exists evs, trace w' = trace w ++ evs /\ List.filter is_rmtree evs = [].
Proof.
  induction file as [|[k p] rest IH]; intros w r w' Hrun.
  - injection Hrun as <- <-. exists []. by rewrite app_nil_r.
  - rewrite download_missing_cons in Hrun.
    destruct (Str.str_in "version" k); [by apply (IH _ _ _ Hrun)|].
    apply bind_inv in Hrun as [(b & w1 & H1 & Hrun)|(e & H1 & _)];
      rewrite isfile_run in H1; [|done].
    injection H1 as <- <-.
    apply bind_inv in Hrun as [([] & w2 & Hdl & Hrun)|(e & Hdl & ->)].
    + destruct (IH _ _ _ Hrun) as (evs2 & Htr2 & Hk2).
      destruct (is_file (fs w) p); simpl in Hdl.
      * injection Hdl as <-. by exists evs2.
      * apply bind_inv in Hdl as [(u & w1 & H1 & Hdl)|(e' & H1 & _)];
          rewrite print_run in H1; [|done].
        injection H1 as _ <-.
        apply bind_inv in Hdl as [(url & w1 & H1 & Hdl)|(e' & H1 & ?)]; [|done].
        unfold getitem in H1. destruct (s3_file !! k); [|done].
        injection H1 as <- <-.
        destruct (download_file_effect _ _ _ _ _ _ Hdl) as ((evs1 & data & Htr1 & Hpre) & _).
        simpl in Htr1. eexists. split.
        { rewrite Htr2, Htr1, <- !app_assoc. simpl. reflexivity. }
        simpl. by rewrite List.filter_app, (prefix_steps_keep _ _ _ Hpre), Hk2.
    + destruct (is_file (fs w) p); simpl in Hdl; [done|].
      apply bind_inv in Hdl as [(u & w1 & H1 & Hdl)|(e' & H1 & _)];
        rewrite print_run in H1; [|done].
      injection H1 as _ <-.
      apply bind_inv in Hdl as [(url & w1 & H1 & Hdl)|(e' & H1 & _)].
      * unfold getitem in H1. destruct (s3_file !! k); [|done].
        injection H1 as <- <-.
        destruct (download_file_effect _ _ _ _ _ _ Hdl) as ((evs1 & data & Htr1 & Hpre) & _).
        simpl in Htr1. eexists. split.
        { rewrite Htr1, <- !app_assoc. simpl. reflexivity. }
        simpl. by rewrite (prefix_steps_keep _ _ _ Hpre).
      * unfold getitem in H1. destruct (s3_file !! k); [done|].
        injection H1 as _ <-. by eexists [_].
Qed.

(** What makes the download loop raise: a due entry without a locator, or a
    raise of [download_file] on a due entry. *)
Lemma download_missing_raise_cases (remote : string -> option reply) (base : string)
    (s3_file : gmap string string) (file : list (string * string)) :
  forall (w : World) (e : exn) (w' : World),
  download_missing remote base s3_file file w = (Raise e, w') ->
  exists k p,
    (k, p) ∈ file /\ Str.str_in "version" k = false /\
    ((s3_file !! k = None /\ e = KeyError k) \/
     (exists url w1, s3_file !! k = Some url /\
                     download_file remote url p w1 = (Raise e, w'))).
Proof.
  induction file as [|[k p] rest IH]; intros w e w' Hrun; [done|].
  rewrite download_missing_cons in Hrun.
  destruct (Str.str_in "version" k) eqn:Hk.
  { destruct (IH _ _ _ Hrun) as (k' & p' & Hin & Hrest).
    exists k', p'. split; [by right|done]. }
  apply bind_inv in Hrun as [(b & w1 & H1 & Hrun)|(e0 & H1 & _)];
    rewrite isfile_run in H1; [|done].
  injection H1 as <- <-.
  apply bind_inv in Hrun as [([] & w2 & Hdl & Hrun)|(e0 & Hdl & [= <-])].
  { destruct (IH _ _ _ Hrun) as (k' & p' & Hin & Hrest).
    exists k', p'. split; [by right|done]. }
  exists k, p. split; [by left|]. split; [done|].
  destruct (is_file (fs w) p); simpl in Hdl; [done|].
  apply bind_inv in Hdl as [(u & w1 & H1 & Hdl)|(e' & H1 & _)];
    rewrite print_run in H1; [|done].
  injection H1 as _ <-.
  apply bind_inv in Hdl as [(url & w1 & H1 & Hdl)|(e' & H1 & [= <-])].
  - unfold getitem in H1. destruct (s3_file !! k) as [loc|]; [|done].
    injection H1 as <- <-. right. by eexists _, _.
  - unfold getitem in H1. destruct (s3_file !! k) as [loc|]; [done|].
    injection H1 as <- _. by left.
Qed.

(** Writing the marker, in full. *)
Lemma write_marker_cases (file : list (string * string)) (version : string)
    (w : World) (r : result unit) (w' : World) :
  write_marker file version w = (r, w') ->
  (r = Raise (OSError version) /\ fs w' = fs w /\
   trace w' = trace w ++ [EOpen Text version] /\
   (is_dir (fs w) version = true \/ parent_ok (fs w) version = false)) \/
  (is_dir (fs w) version = false /\ parent_ok (fs w) version = true /\
   ((assoc file "version" = None /\ r = Raise (KeyError "version") /\
     fs w' = <[version := File ""]> (fs w) /\
     trace w' = trace w ++ [EOpen Text version]) \/
    (exists v, assoc file "version" = Some v /\ r = Ok tt /\
               fs w' = <[version := File v]> (fs w) /\
               trace w' = trace w ++ [EOpen Text version; EWrite version v]))).
Proof.
  unfold write_marker, open_w, write, getitem_l, emit, get_fs, set_fs, bind, ret, raise.
  simpl. intros H.
  destruct (is_dir (fs w) version) eqn:Hd; simpl in H.
  { injection H as <- <-. left. repeat split; try done. by left. }
  destruct (parent_ok (fs w) version) eqn:Hp; simpl in H.
  2: { injection H as <- <-. left. repeat split; try done. by right. }
  right. split; [done|]. split; [done|].
  destruct (assoc file "version") as [v|]; simpl in H; injection H as <- <-; simpl.
  - right. exists v. repeat split; try done.
    + unfold file_at. rewrite lookup_insert_eq. simpl. by rewrite insert_insert_eq.
    + by rewrite <- app_assoc.
  - by left.
Qed.

(** The disk after lines 97-105 went through. *)
Lemma download_phase_ok (remote : string -> option reply) (base version : string)
    (s3_file : gmap string string) (file : list (string * string))
    (w0 w' : World) :
  (download_missing remote base s3_file file;; write_marker file version) w0 = (Ok tt, w') ->
  exists v,
    assoc file "version" = Some v /\
    fs w' !! version = Some (File v) /\
    parent_ok (fs w') version = true /\
    (forall k p, (k, p) ∈ file -> Str.str_in "version" k = false ->
                 is_file (fs w') p = true).
Proof.
  intros Hrun.
  apply bind_inv in Hrun as [([] & w1 & Hloop & Hmark)|(e & _ & ?)]; [|done].
  destruct (download_missing_effect remote base s3_file (fs w0) file [] w0 (Ok tt) w1)
    as (evs & fetched & rest & _ & _ & _ & _ & _ & _ & Hok); [|done|].
  { intros q. rewrite bool_decide_eq_false_2; [done|]. apply not_elem_of_nil. }
  destruct (Hok eq_refl) as [_ Hall].
  destruct (write_marker_cases _ _ _ _ _ Hmark)
    as [(? & _)|(Hnd & Hpar & [(_ & ? & _)|(v & Hv & _ & Hfs & _)])]; [done..|].
  exists v. split; [done|]. rewrite Hfs. split; [by rewrite lookup_insert_eq|]. split.
  - unfold parent_ok in *. destruct (decide (Str.dirname version = version)) as [Heq|Hne].
    + rewrite Heq in *. rewrite Hnd, orb_false_r in Hpar. by rewrite Hpar.
    + unfold is_dir in *. by rewrite lookup_insert_ne.
  - intros k p Hin Hk. specialize (Hall k p Hin Hk). unfold is_file in *.
    destruct (decide (version = p)) as [->|Hne].
    + by rewrite lookup_insert_eq.
    + by rewrite lookup_insert_ne.
Qed.

(** A validating call on a complete cache whose marker reads exactly the
    expected version: nothing is requested and the disk stays as it is. *)
Lemma check_file_on_complete (remote : string -> option reply)
    (file : list (string * string)) (s3_file : gmap string string)
    (w : World) (model v : string) :
  assoc file "model" = Some model ->
  assoc file "version" = Some v ->
  fs w !! (Str.dirname model +:+ "/version") = Some (File v) ->
  parent_ok (fs w) (Str.dirname model +:+ "/version") = true ->
  ~ some_absent (fs w) file ->
  exists w' evs,
    check_file remote file s3_file true w = (Ok tt, w') /\
    fs w' = fs w /\ trace w' = trace w ++ evs /\ gets evs = [].
Proof.
  intros Hm Hv Hmark Hpar Hall.
  rewrite (check_file_validate _ _ _ _ _ Hm).
  assert (file_at (fs w) (Str.dirname model +:+ "/version") = Some v) as Hc.
  { unfold file_at. by rewrite Hmark. }
  rewrite (bind_ok _ _ _ _ _
             (stale_or_missing_current _ _ _ _ _ _ Hc Hv (str_in_refl v))).
  destruct (existsb _ file).
  - rewrite (bind_ok _ _ _ _ _ (download_missing_all_present _ _ _ _ _ Hall)).
    destruct (write_marker file (Str.dirname model +:+ "/version") w) as [r w'] eqn:Hw.
    destruct (write_marker_cases _ _ _ _ _ Hw)
      as [(_ & _ & _ & [Hd|Hp])|(_ & _ & [(? & _)|(v' & Hv' & -> & Hfs & Htr)])].
    + unfold is_dir in Hd. by rewrite Hmark in Hd.
    + congruence.
    + congruence.
    + assert (v' = v) as -> by congruence.
      exists w', [EOpen Text (Str.dirname model +:+ "/version");
                  EWrite (Str.dirname model +:+ "/version") v].
      repeat split; try done. rewrite Hfs. by apply insert_id.
  - exists w, []. by rewrite app_nil_r.
Qed.

(** X5. Running the validating call again after it returned normally is
    harmless: the second call also returns normally, requests nothing from the
    remote store and leaves the disk exactly as the first call left it. *)
Theorem check_file_twice (remote : string -> option reply)
    (file : list (string * string)) (s3_file : gmap string string)
    (w w' : World) :
  check_file remote file s3_file true w = (Ok tt, w') ->
  exists w'' evs,
    check_file remote file s3_file true w' = (Ok tt, w'') /\
    fs w'' = fs w' /\ trace w'' = trace w' ++ evs /\ gets evs = [].
Proof.
  intros Hrun. destruct (assoc file "model") as [model|] eqn:Hm.
  2: { by rewrite (check_file_validate_no_model _ _ _ _ Hm) in Hrun. }
  pose proof Hrun as Hfirst.
  rewrite (check_file_validate _ _ _ _ _ Hm) in Hrun.
  apply bind_inv in Hrun as [(download & w0 & Hdec & Hrun)|(e & _ & ?)]; [|done].
  destruct download.
  - destruct (download_phase_ok _ _ _ _ _ _ _ Hrun) as (v & Hv & Hmark & Hpar & Hall).
    apply (check_file_on_complete _ _ _ _ model v); try done.
    intros (k & p & Hin & Hk & Hp). by rewrite (Hall k p Hin Hk) in Hp.
  - injection Hrun as <-.
    destruct (stale_or_missing_effect _ _ _ _ _ _ Hdec) as (_ & _ & _ & _ & Hkeep).
    destruct (Hkeep eq_refl) as (-> & _).
    exists w, []. by rewrite app_nil_r.
Qed.

Lemma check_file_twice_witness :
  exists w' w'' evs,
    check_file Scenario.serving Scenario.manifest Scenario.s3_file true
      (Scenario.start ∅) = (Ok tt, w') /\
    check_file Scenario.serving Scenario.manifest Scenario.s3_file true w'
    = (Ok tt, w'') /\
    fs w'' = fs w' /\ trace w'' = trace w' ++ evs /\ gets evs = [].
Proof.
  destruct (check_file Scenario.serving Scenario.manifest Scenario.s3_file true
              (Scenario.start ∅)) as [r w'] eqn:Hrun.
  assert (r = Ok tt) as -> by (by vm_compute in Hrun; injection Hrun as <- _).
  destruct (check_file_twice _ _ _ _ _ Hrun) as (w'' & evs & H).
  exists w', w'', evs. split; [reflexivity|exact H].
Defined.

(** X6. After a validating call that returned normally every file of the
    manifest exists on disk; and unless the call left the world exactly as it
    found it, every one of them is a regular file, so a non-validating call
    then returns normally too. *)
Theorem check_file_then_available (remote : string -> option reply)
    (file : list (string * string)) (s3_file : gmap string string)
    (w w' : World) :
  check_file remote file s3_file true w = (Ok tt, w') ->
  (forall key item, (key, item) ∈ file -> Str.str_in "version" key = false ->
                    path_exists (fs w') item = true) /\
  (w' = w \/ check_file remote file s3_file false w' = (Ok tt, w')).
Proof.
  intros Hrun. destruct (assoc file "model") as [model|] eqn:Hm.
  2: { by rewrite (check_file_validate_no_model _ _ _ _ Hm) in Hrun. }
  rewrite (check_file_validate _ _ _ _ _ Hm) in Hrun.
  apply bind_inv in Hrun as [(download & w0 & Hdec & Hrun)|(e & _ & ?)]; [|done].
  destruct download.
  - destruct (download_phase_ok _ _ _ _ _ _ _ Hrun) as (v & _ & _ & _ & Hall).
    split.
    + intros k p Hin Hk. specialize (Hall k p Hin Hk).
      unfold is_file in Hall. unfold path_exists.
      by destruct (fs w' !! p) as [[?|]|].
    + right. unfold check_file.
      rewrite (bind_ok _ _ _ _ _ (check_available_run file w')).
      replace (forallb _ file) with true; [done|].
      symmetry. apply not_false_iff_true. intros Hf.
      apply forallb_false_absent in Hf as (k & p & Hin & Hk & Hp).
      by rewrite (Hall k p Hin Hk) in Hp.
  - injection Hrun as <-.
    destruct (stale_or_missing_effect _ _ _ _ _ _ Hdec) as (_ & _ & _ & _ & Hkeep).
    destruct (Hkeep eq_refl) as (-> & _ & _ & _ & _ & _ & Hall).
    split; [|by left]. intros k p Hin _. by apply (Hall k).
Qed.

Lemma check_file_then_available_witness :
  exists w',
    check_file Scenario.serving Scenario.manifest Scenario.s3_file true
      (Scenario.start ∅) = (Ok tt, w') /\
    (w' = Scenario.start ∅ \/
     check_file Scenario.serving Scenario.manifest Scenario.s3_file false w'
     = (Ok tt, w')).
Proof.
  destruct (check_file Scenario.serving Scenario.manifest Scenario.s3_file true
              (Scenario.start ∅)) as [r w'] eqn:Hrun.
  assert (r = Ok tt) as -> by (by vm_compute in Hrun; injection Hrun as <- _).
  exists w'. split; [reflexivity|].
  exact (proj2 (check_file_then_available _ _ _ _ _ Hrun)).
Defined.

(** ** [check_file]: what a validating call leaves alone *)

Lemma no_rmtree_elem (evs : list event) (d : string) :
  List.filter is_rmtree evs = [] -> ERmtree d ∉ evs.
Proof.
  intros Hf Hin. apply list_elem_of_In in Hin.
  assert (In (ERmtree d) (List.filter is_rmtree evs)) as H
    by by apply List.filter_In.
  by rewrite Hf in H.
Qed.

(** The decision of lines 82-95 either leaves the world alone or, on a stale
    marker, deletes the cache directory. *)
Lemma stale_or_missing_world (file : list (string * string))
    (base version : string) (w : World) (r : result bool) (w0 : World) :
  stale_or_missing file base version w = (r, w0) ->
  w0 = w \/
  (exists v content,
     assoc file "version" = Some v /\ file_at (fs w) version = Some content /\
     Str.str_in v content = false /\ r = Ok true /\
     w0 = mkWorld (rmtree base (fs w))
            (trace w ++ [EPrint ("Found old version of " +:+ base +:+ ", deleting..");
                         ERmtree base; EPrint "Done."])).
Proof.
  intros Hrun. destruct (is_file (fs w) version) eqn:Hf.
  - destruct (is_file_file_at _ _ Hf) as [content Hc].
    destruct (assoc file "version") as [v|] eqn:Hv.
    + destruct (Str.str_in v content) eqn:Hin.
      * rewrite (stale_or_missing_current _ _ _ _ _ _ Hc Hv Hin) in Hrun.
        injection Hrun as _ <-. by left.
      * rewrite (stale_or_missing_stale _ _ _ _ _ _ Hc Hv Hin) in Hrun.
        injection Hrun as <- <-. right. by exists v, content.
    + rewrite (stale_or_missing_no_version _ _ _ _ Hf Hv) in Hrun.
      injection Hrun as _ <-. by left.
  - rewrite (stale_or_missing_no_marker _ _ _ _ Hf) in Hrun.
    injection Hrun as _ <-. by left.
Qed.

(** Lines 97-105, whatever the outcome: nothing is deleted, and a regular
    file that is neither the marker nor the path of an entry to download
    keeps its content. *)
Lemma download_phase_frame (remote : string -> option reply) (base version : string)
    (s3_file : gmap string string) (file : list (string * string))
    (w0 : World) (r : result unit) (w' : World) :
  (download_missing remote base s3_file file;; write_marker file version) w0 = (r, w') ->
  exists evs,
    trace w' = trace w0 ++ evs /\ List.filter is_rmtree evs = [] /\
    (forall q, q <> version ->
       (forall k, (k, q) ∈ file -> Str.str_in "version" k = true) ->
       file_at (fs w') q = file_at (fs w0) q).
Proof.
  intros Hrun.
  apply bind_inv in Hrun as [([] & w1 & Hloop & Hmark)|(e & Hloop & ->)].
  - destruct (download_missing_keeps _ _ _ _ _ _ _ Hloop) as (evs1 & Htr1 & Hk1).
    destruct (download_missing_run _ _ _ _ _ _ _ Hloop)
      as (_ & _ & _ & _ & _ & Hframe & _).
    destruct (write_marker_cases _ _ _ _ _ Hmark)
      as [(_ & Hfs & Htr & _)|(_ & _ & [(_ & _ & Hfs & Htr)|(v & _ & _ & Hfs & Htr)])].
    + exists (evs1 ++ [EOpen Text version]). split; [by rewrite Htr, Htr1, <- app_assoc|].
      split; [by rewrite List.filter_app, Hk1|].
      intros q _ Hq. rewrite Hfs. by apply Hframe.
    + exists (evs1 ++ [EOpen Text version]). split; [by rewrite Htr, Htr1, <- app_assoc|].
      split; [by rewrite List.filter_app, Hk1|].
      intros q Hne Hq. rewrite <- (Hframe q Hq), Hfs. unfold file_at.
      by rewrite lookup_insert_ne.
    + exists (evs1 ++ [EOpen Text version; EWrite version v]).
      split; [by rewrite Htr, Htr1, <- app_assoc|].
      split; [by rewrite List.filter_app, Hk1|].
      intros q Hne Hq. rewrite <- (Hframe q Hq), Hfs. unfold file_at.
      by rewrite lookup_insert_ne.
  - destruct (download_missing_keeps _ _ _ _ _ _ _ Hloop) as (evs1 & Htr1 & Hk1).
    destruct (download_missing_run _ _ _ _ _ _ _ Hloop)
      as (_ & _ & _ & _ & _ & Hframe & _).
    exists evs1. repeat split; try done. intros q _ Hq. by apply Hframe.
Qed.

(** The validating branch as a whole: the decision, then a part that deletes
    nothing. *)
Lemma check_file_validate_shape (remote : string -> option reply)
    (file : list (string * string)) (s3_file : gmap string string)
    (w : World) (model : string) (res : result unit) (w' : World) :
  assoc file "model" = Some model ->
  check_file remote file s3_file true w = (res, w') ->
  exists r0 w0 evs,
    stale_or_missing file (Str.dirname model) (Str.dirname model +:+ "/version") w
    = (r0, w0) /\
    trace w' = trace w0 ++ evs /\ List.filter is_rmtree evs = [] /\
    (forall q, q <> Str.dirname model +:+ "/version" ->
       (forall k, (k, q) ∈ file -> Str.str_in "version" k = true) ->
       file_at (fs w') q = file_at (fs w0) q).
Proof.
  intros Hm Hrun. rewrite (check_file_validate _ _ _ _ _ Hm) in Hrun.
  apply bind_inv in Hrun as [(download & w0 & Hdec & Hrun)|(e & Hdec & _)].
  - exists (Ok download), w0. destruct download.
    + destruct (download_phase_frame _ _ _ _ _ _ _ _ Hrun) as (evs & Htr & Hk & Hframe).
      by exists evs.
    + injection Hrun as _ <-. exists []. by rewrite app_nil_r.
  - exists (Raise e), w', []. by rewrite app_nil_r.
Qed.

Lemma check_file_no_validate_world (remote : string -> option reply)
    (file : list (string * string)) (s3_file : gmap string string)
    (w : World) (res : result unit) (w' : World) :
  check_file remote file s3_file false w = (res, w') -> w' = w.
Proof.
  unfold check_file. rewrite (bind_ok _ _ _ _ _ (check_available_run file w)).
  destruct (forallb _ file); simpl; [by injection 1 as _ <-|].
  unfold getitem_l. destruct (assoc file "model"); by injection 1 as _ <-.
Qed.

(** X7. [check_file] deletes a directory only in one situation: a validating
    call that finds a Version Marker file whose content does not contain the
    expected version; and what it deletes then is the directory of the model
    path.  In every other run nothing is deleted. *)
Theorem check_file_deletes_only_stale (remote : string -> option reply)
    (file : list (string * string)) (s3_file : gmap string string)
    (validate : bool) (w : World) (res : result unit) (w' : World)
    (evs : list event) (d : string) :
  check_file remote file s3_file validate w = (res, w') ->
  trace w' = trace w ++ evs ->
  ERmtree d ∈ evs ->
  validate = true /\
  exists model v content,
    assoc file "model" = Some model /\ d = Str.dirname model /\
    assoc file "version" = Some v /\
    file_at (fs w) (Str.dirname model +:+ "/version") = Some content /\
    Str.str_in v content = false.
Proof.
  intros Hrun Htr Hin. destruct validate.
  2: { apply check_file_no_validate_world in Hrun as ->.
       rewrite <- (app_nil_r (trace w)) in Htr at 1.
       apply app_inv_head in Htr as <-. by apply elem_of_nil in Hin. }
  split; [done|]. destruct (assoc file "model") as [model|] eqn:Hm.
  2: { rewrite (check_file_validate_no_model _ _ _ _ Hm) in Hrun.
       injection Hrun as _ <-. rewrite <- (app_nil_r (trace w)) in Htr at 1.
       apply app_inv_head in Htr as <-. by apply elem_of_nil in Hin. }
  destruct (check_file_validate_shape _ _ _ _ _ _ _ Hm Hrun)
    as (r0 & w0 & evs1 & Hdec & Htr1 & Hk1 & _).
  destruct (stale_or_missing_world _ _ _ _ _ _ Hdec)
    as [->|(v & content & Hv & Hc & Hstale & _ & ->)].
  - rewrite Htr1 in Htr. apply app_inv_head in Htr as <-.
    by destruct (no_rmtree_elem _ d Hk1).
  - simpl in Htr1. rewrite Htr1, <- app_assoc in Htr.
    apply app_inv_head in Htr as <-.
    exists model, v, content. repeat split; try done.
    simpl in Hin. apply elem_of_cons in Hin as [?|Hin]; [done|].
    apply elem_of_cons in Hin as [[= ->]|Hin]; [done|].
    apply elem_of_cons in Hin as [?|Hin]; [done|].
    by destruct (no_rmtree_elem _ d Hk1).
Qed.

Lemma check_file_deletes_only_stale_witness :
  exists model v content,
    assoc Scenario.manifest "model" = Some model /\ "a" = Str.dirname model /\
    assoc Scenario.manifest "version" = Some v /\
    file_at (Scenario.cached "0.9") (Str.dirname model +:+ "/version") = Some content /\
    Str.str_in v content = false.
Proof.
  destruct (check_file Scenario.unreachable Scenario.manifest Scenario.s3_file true
              (Scenario.start (Scenario.cached "0.9"))) as [res w'] eqn:Hrun.
  assert (trace w'
          = trace (Scenario.start (Scenario.cached "0.9"))
            ++ [EPrint "Found old version of a, deleting.."; ERmtree "a"; EPrint "Done.";
                EPrint "downloading frozen a model";
                EGet "https://f000.backblazeb2.com/file/malaya-model/v1/m.pb"]) as Htr
    by (by vm_compute in Hrun; injection Hrun as _ <-).
  apply (check_file_deletes_only_stale _ _ _ _ _ _ _ _ "a" Hrun Htr).
  right. by left.
Defined.

(** X8. A validating call never changes or removes a regular file that lies
    outside the cache directory and is neither the Version Marker nor the
    path of a manifest entry to download: such a file reads the same after
    the call, whether the call returns or raises. *)
Theorem check_file_leaves_other_files (remote : string -> option reply)
    (file : list (string * string)) (s3_file : gmap string string)
    (w : World) (model : string) (res : result unit) (w' : World) (q : string) :
  assoc file "model" = Some model ->
  check_file remote file s3_file true w = (res, w') ->
  q <> Str.dirname model +:+ "/version" ->
  under (Str.dirname model) q = false ->
  (forall key, (key, q) ∈ file -> Str.str_in "version" key = true) ->
  file_at (fs w') q = file_at (fs w) q.
Proof.
  intros Hm Hrun Hq Hu Hnt.
  destruct (check_file_validate_shape _ _ _ _ _ _ _ Hm Hrun)
    as (r0 & w0 & evs1 & Hdec & _ & _ & Hframe).
  rewrite (Hframe q Hq Hnt).
  destruct (stale_or_missing_world _ _ _ _ _ _ Hdec)
    as [->|(v & content & _ & _ & _ & _ & ->)]; [done|].
  simpl. unfold file_at. by rewrite rmtree_not_under.
Qed.

Lemma check_file_leaves_other_files_witness :
  file_at (fs (check_file Scenario.serving Scenario.manifest Scenario.s3_file true
                 (Scenario.start (Scenario.cached2 "0.9"))).2) "b/v.txt"
  = file_at (fs (Scenario.start (Scenario.cached2 "0.9"))) "b/v.txt".
Proof.
  destruct (check_file Scenario.serving Scenario.manifest Scenario.s3_file true
              (Scenario.start (Scenario.cached2 "0.9"))) as [res w'] eqn:Hrun.
  apply (check_file_leaves_other_files Scenario.serving Scenario.manifest
           Scenario.s3_file _ "a/m.pb" res w' "b/v.txt" eq_refl Hrun).
  - discriminate.
  - reflexivity.
  - clear Hrun. intros key Hin. unfold Scenario.manifest in Hin.
    apply elem_of_cons in Hin as [Heq|Hin]; [discriminate Heq|].
    apply elem_of_cons in Hin as [Heq|Hin]; [discriminate Heq|].
    by apply elem_of_nil in Hin.
Defined.

(** ** [check_file]: missing keys *)

(** The exceptions [download_file] can raise. *)
Lemma download_file_raises (remote : string -> option reply)
    (url filename : string) (w : World) (e : exn) (w' : World) :
  download_file remote url filename w = (Raise e, w') ->
  e = KeyError "content-length" \/
  (exists u, e = RequestError u) \/ (exists p, e = OSError p).
Proof.
  intros Hrun.
  destruct (download_file_outcomes _ _ _ _ _ _ Hrun)
    as [(_ & [= ->] & _)|[(r & _ & _ & [= ->] & _)|(r & n & _ & _ & Hcase)]];
    [right; left; by eexists|by left|].
  destruct Hcase as [([= ->] & _)|(_ & _ & [([= ->] & _)|(Hres & _)])];
    [right; right; by eexists..|].
  destruct (intact r); [done|]. injection Hres as ->. right. left. by eexists.
Qed.



(** X10. Where a [KeyError] of [check_file] comes from: the manifest lacks
    "model" or "version", or a reply lacked the [content-length] header, or
    the key is that of a manifest entry to download for which [s3_file] has no
    locator. *)
Theorem check_file_key_error (remote : string -> option reply)
    (file : list (string * string)) (s3_file : gmap string string)
    (validate : bool) (w : World) (k : string) (w' : World) :
  check_file remote file s3_file validate w = (Raise (KeyError k), w') ->
  (k = "model" /\ assoc file "model" = None) \/
  (k = "version" /\ assoc file "version" = None /\ validate = true) \/
  (k = "content-length" /\ validate = true) \/
  (s3_file !! k = None /\ validate = true /\
   exists item, (k, item) ∈ file /\ Str.str_in "version" k = false).
Proof.
  intros Hrun. destruct validate.
  2: { left. unfold check_file in Hrun.
       rewrite (bind_ok _ _ _ _ _ (check_available_run file w)) in Hrun.
       destruct (forallb _ file); simpl in Hrun; [done|].
       unfold getitem_l in Hrun. destruct (assoc file "model"); [done|].
       by injection Hrun as <- _. }
  destruct (assoc file "model") as [model|] eqn:Hm.
  2: { rewrite (check_file_validate_no_model _ _ _ _ Hm) in Hrun.
       injection Hrun as <- _. by left. }
  right. rewrite (check_file_validate _ _ _ _ _ Hm) in Hrun.
  apply bind_inv in Hrun as [(download & w0 & Hdec & Hrun)|(e & Hdec & [= <-])].
  2: { left. destruct (is_file (fs w) (Str.dirname model +:+ "/version")) eqn:Hf.
       - destruct (is_file_file_at _ _ Hf) as [content Hc].
         destruct (assoc file "version") as [v|] eqn:Hv.
         + destruct (Str.str_in v content) eqn:Hin.
           * by rewrite (stale_or_missing_current _ _ _ _ _ _ Hc Hv Hin) in Hdec.
           * by rewrite (stale_or_missing_stale _ _ _ _ _ _ Hc Hv Hin) in Hdec.
         + rewrite (stale_or_missing_no_version _ _ _ _ Hf Hv) in Hdec.
           by injection Hdec as <- _.
       - by rewrite (stale_or_missing_no_marker _ _ _ _ Hf) in Hdec. }
  destruct download; [|done].
  apply bind_inv in Hrun as [([] & w1 & Hloop & Hmark)|(e & Hloop & [= <-])].
  - left. destruct (write_marker_cases _ _ _ _ _ Hmark)
      as [(? & _)|(_ & _ & [(Hv & [= ->] & _)|(v & _ & ? & _)])]; done.
  - right. destruct (download_missing_raise_cases _ _ _ _ _ _ _ Hloop)
      as (k' & p & Hin & Hk & [(Hnone & [= ->])|(url & w1 & _ & Hdl)]).
    + right. repeat split; try done. by exists p.
    + left. destruct (download_file_raises _ _ _ _ _ _ Hdl)
        as [[= ->]|[(? & ?)|(? & ?)]]; done.
Qed.

Lemma check_file_key_error_witness :
  ("model" = "model" /\ assoc Scenario.manifest "model" = None) \/
  ("model" = "version" /\ assoc Scenario.manifest "version" = None /\ true = true) \/
  ("model" = "content-length" /\ true = true) \/
  ((∅ : gmap string string) !! "model" = None /\ true = true /\
   exists item, ("model", item) ∈ Scenario.manifest /\ Str.str_in "version" "model" = false).
Proof.
  apply (check_file_key_error Scenario.serving Scenario.manifest ∅ true
           (Scenario.start ∅) "model"
           (mkWorld ∅ [EPrint "downloading frozen a model"])).
  reflexivity.
Defined.

(** ** [check_available]: the order of the manifest *)

(** X11. The answer of [check_available] does not depend on the order of the
    entries of the manifest, although the loop stops at the first missing
    file. *)
Theorem check_available_permutation (file file' : list (string * string)) (w : World) :
  file ≡ₚ file' ->
  check_available file w = check_available file' w.
Proof.
  intros Hperm. rewrite !check_available_run. do 2 f_equal.
  induction Hperm as [|x l l' _ IH|x y l|l l' l'' _ IH1 _ IH2]; simpl.
  - done.
  - by rewrite IH.
  - rewrite !andb_assoc. f_equal. apply andb_comm.
  - by rewrite IH1.
Qed.

Lemma check_available_permutation_witness :
  check_available [("model", "a/m.pb"); ("vocab", "b/v.txt")]
    (Scenario.start Scenario.unmarked)
  = check_available [("vocab", "b/v.txt"); ("model", "a/m.pb")]
      (Scenario.start Scenario.unmarked).
Proof.
  apply check_available_permutation. apply Permutation_swap.
Defined.

(** ** [add_neutral]: the entries of the result *)

Section NeutralEntries.
Import Numpy.

(** The heap after [add_neutral], with the array it returns spelled out. *)
Lemma add_neutral_result (h : list ndarray) (x : nat) (a : ndarray) (alpha : Qc) (n : nat) :
  h !! x = Some a -> ncols a = S n ->
  exists mid,
    add_neutral x alpha h
    = (Ok (length (h ++ mid)),
       (h ++ mid) ++ [mkArray (S n + 1) (map (neutral_row (S n) alpha) (rows a))]).
Proof.
  intros Hx Hn. unfold add_neutral, copy, shape1, sub_scalar, scalar_mul,
    maximum, div_scalar, sum_axis1, scalar_sub, concatenate1.
  set (d := (1 / Qc_of_Z (Z.of_nat (S n)))%Qc).
  rewrite (bind_ok _ _ _ _ _ (unary_run (fun a => a) _ _ _ Hx)).
  set (h1 := h ++ [a]).
  assert (h1 !! length h = Some a) as H0 by apply lookup_snoc_new.
  rewrite (bind_ok _ _ _ _ _ (bind_ok _ _ _ _ _ (load_run _ _ _ H0))).
  rewrite Hn. unfold one_over.
  rewrite (bind_ok _ _ h1 d h1) by reflexivity.
  rewrite (bind_ok _ _ _ _ _ (unary_run (map_entries (fun v => v - d)%Qc) _ _ _ H0)).
  set (A1 := map_entries (fun v => (v - d)%Qc) a). set (h2 := h1 ++ [A1]).
  assert (h2 !! length h1 = Some A1) as H1 by apply lookup_snoc_new.
  assert (h2 !! length h = Some a) as H0' by (by apply lookup_snoc_old).
  rewrite (bind_ok _ _ _ _ _ (unary_run (map_entries (fun v => alpha * v)%Qc) _ _ _ H0')).
  set (A2 := map_entries (fun v => (alpha * v)%Qc) a). set (h3 := h2 ++ [A2]).
  assert (h3 !! length h2 = Some A2) as H2 by apply lookup_snoc_new.
  assert (h3 !! length h1 = Some A1) as H1' by (by apply lookup_snoc_old).
  rewrite (bind_ok _ _ _ _ _
             (binary_run (fun a b => mkArray (ncols a)
                            (zip_with (zip_with Qcmax) (rows a) (rows b)))
                _ _ _ _ _ H1' H2)).
  set (A3 := mkArray (ncols A1) (zip_with (zip_with Qcmax) (rows A1) (rows A2))).
  set (h4 := h3 ++ [A3]).
  assert (h4 !! length h3 = Some A3) as H3 by apply lookup_snoc_new.
  rewrite (bind_ok _ _ _ _ _ (unary_run (map_entries (fun v => v / d)%Qc) _ _ _ H3)).
  set (A4 := map_entries (fun v => (v / d)%Qc) A3). set (h5 := h4 ++ [A4]).
  assert (h5 !! length h4 = Some A4) as H4 by apply lookup_snoc_new.
  rewrite (bind_ok _ _ _ _ _
             (unary_run (fun a => mkArray 1 (map (fun r => [sum r]) (rows a))) _ _ _ H4)).
  set (A5 := mkArray 1 (map (fun r => [sum r]) (rows A4))). set (h6 := h5 ++ [A5]).
  assert (h6 !! length h5 = Some A5) as H5 by apply lookup_snoc_new.
  assert (h6 !! length h4 = Some A4) as H4' by (by apply lookup_snoc_old).
  rewrite (bind_ok _ _ _ _ _ (unary_run (map_entries (fun v => 1 - v)%Qc) _ _ _ H5)).
  set (A6 := map_entries (fun v => (1 - v)%Qc) A5). set (h7 := h6 ++ [A6]).
  assert (h7 !! length h6 = Some A6) as H6 by apply lookup_snoc_new.
  assert (h7 !! length h4 = Some A4) as H4'' by (by apply lookup_snoc_old).
  rewrite (binary_run (fun a b => mkArray (ncols a + ncols b)
                         (zip_with app (rows a) (rows b))) _ _ _ _ _ H4'' H6).
  exists [a; A1; A2; A3; A4; A5; A6].
  assert (h7 = h ++ [a; A1; A2; A3; A4; A5; A6]) as <-.
  { unfold h7, h6, h5, h4, h3, h2, h1. by rewrite <- !app_assoc. }
  do 3 f_equal.
  assert (rows A4 = map (map (neutral_entry (S n) alpha)) (rows a)) as Hrows.
  { unfold A4, A3, A1, A2, map_entries. simpl.
    rewrite zip_with_map_same, map_map. apply map_ext. intros r.
    by rewrite zip_with_map_same, map_map. }
  assert (ncols A4 = S n) as Hcols by done.
  clearbody A4. unfold A6, A5, map_entries. simpl. rewrite Hcols. f_equal.
  rewrite Hrows, !map_map. simpl. by rewrite zip_with_map_same.
Qed.

Lemma Qc_of_S_pos (n : nat) : (0 < Qc_of_Z (Z.of_nat (S n)))%Qc.
Proof. apply (proj1 (Z2Qc_inj_lt 0 (Z.of_nat (S n)))). lia. Qed.

Lemma Qcmax_scale (u v c : Qc) :
  (0 < c)%Qc -> (Qcmax u v * c = Qcmax (u * c) (v * c))%Qc.
Proof.
  intros Hc. unfold Qcmax.
  destruct (decide (u ≤ v)%Qc) as [Hle|Hnle];
    destruct (decide (u * c ≤ v * c)%Qc) as [Hle'|Hnle']; try done.
  - destruct Hnle'. by apply Qcmult_le_mono_pos_r.
  - destruct Hnle. by apply (Qcmult_le_mono_pos_r _ _ c).
Qed.

(** The rescaled entry without the division: [max(n*v - 1, n*alpha*v)]. *)
Lemma neutral_entry_closed (n : nat) (alpha v : Qc) :
  neutral_entry (S n) alpha v
  = Qcmax (Qc_of_Z (Z.of_nat (S n)) * v - 1)%Qc
          (Qc_of_Z (Z.of_nat (S n)) * alpha * v)%Qc.
Proof.
  unfold neutral_entry. pose proof (Qc_of_S_pos n) as Hpos.
  set (N := Qc_of_Z (Z.of_nat (S n))) in *.
  assert (N <> 0%Qc) as Hne by (intros ->; by apply Qclt_not_eq in Hpos).
  replace (Qcmax (v - 1 / N) (alpha * v) / (1 / N))%Qc
    with (Qcmax (v - 1 / N) (alpha * v) * N)%Qc by (by field).
  rewrite (Qcmax_scale _ _ _ Hpos). f_equal; by field.
Qed.








(** X12. [add_neutral] on a live array raises exactly when the array has no
    column: the exception is then [ZeroDivisionError], from [1 / x.shape[1]],
    and by then only the copy of line 195 has been allocated. *)
Theorem add_neutral_raises_iff (h : list ndarray) (x : nat) (a : ndarray) (alpha : Qc) :
  h !! x = Some a ->
  (ncols a = 0 -> add_neutral x alpha h = (Raise ZeroDivisionError, h ++ [a])) /\
  (forall e h', add_neutral x alpha h = (Raise e, h') ->
     ncols a = 0 /\ e = ZeroDivisionError /\ h' = h ++ [a]).
Proof.
  intros Hx. assert (ncols a = 0 ->
    add_neutral x alpha h = (Raise ZeroDivisionError, h ++ [a])) as Hzero.
  { intros Hc. unfold add_neutral, copy, shape1.
    rewrite (bind_ok _ _ _ _ _ (unary_run (fun a => a) _ _ _ Hx)).
    rewrite (bind_ok _ _ _ _ _
               (bind_ok _ _ _ _ _ (load_run _ _ _ (lookup_snoc_new h a)))).
    by rewrite Hc. }
  split; [exact Hzero|]. intros e h' Hrun.
  destruct (ncols a) as [|n] eqn:Hc.
  - rewrite (Hzero eq_refl) in Hrun. by injection Hrun as <- <-.
  - destruct (add_neutral_result h x a alpha n Hx Hc) as (mid & Hok).
    rewrite Hok in Hrun. discriminate Hrun.
Qed.

Lemma add_neutral_raises_iff_witness :
  add_neutral 0 alpha_default [mkArray 0 [[]; []]]
  = (Raise ZeroDivisionError, [mkArray 0 [[]; []]; mkArray 0 [[]; []]]).
Proof.
  apply (proj1 (add_neutral_raises_iff [mkArray 0 [[]; []]] 0 (mkArray 0 [[]; []])
                  alpha_default eq_refl)).
  reflexivity.
Defined.

(** X13. The array [add_neutral] returns, entry by entry, in exact
    arithmetic: with [n >= 1] columns, an entry [v] becomes
    [max(n*v - 1, n*alpha*v)], and every row gets one more entry, 1 minus
    the sum of its new entries. *)
Theorem add_neutral_entries (h : list ndarray) (x : nat) (a : ndarray) (alpha : Qc) :
  h !! x = Some a ->
  1 <= ncols a ->
  exists r h',
    add_neutral x alpha h = (Ok r, h') /\
    h' !! r
    = Some (mkArray (S (ncols a))
              (map (fun row =>
                      let scaled :=
                        map (fun v => Qcmax (Qc_of_Z (Z.of_nat (ncols a)) * v - 1)%Qc
                                            (Qc_of_Z (Z.of_nat (ncols a)) * alpha * v)%Qc)
                            row in
                      scaled ++ [(1 - sum scaled)%Qc])
                   (rows a))).
Proof.
  intros Hx Hc. destruct (ncols a) as [|n] eqn:Hn; [lia|].
  destruct (add_neutral_result h x a alpha n Hx Hn) as (mid & Hrun).
  eexists _, _. split; [exact Hrun|].
  rewrite lookup_snoc_new. do 2 f_equal; [lia|].
  apply map_ext. intros row. unfold neutral_row.
  assert (map (neutral_entry (S n) alpha) row
          = map (fun v => Qcmax (Qc_of_Z (Z.of_nat (S n)) * v - 1)%Qc
                                (Qc_of_Z (Z.of_nat (S n)) * alpha * v)%Qc) row) as ->;
    [|done].
  apply map_ext. intros v. apply neutral_entry_closed.
Qed.

Lemma add_neutral_entries_witness :
  exists r h',
    add_neutral 0 alpha_default [mkArray 2 [[Q2Qc (7 # 10); Q2Qc (3 # 10)]]]
    = (Ok r, h') /\
    h' !! r = Some (mkArray 3 [[Q2Qc (4 # 10); Q2Qc (6 # 1000); Q2Qc (594 # 1000)]]).
Proof.
  destruct (add_neutral_entries [mkArray 2 [[Q2Qc (7 # 10); Q2Qc (3 # 10)]]] 0 _
              alpha_default eq_refl) as (r & h' & Hrun & Hb).
  - simpl. lia.
  - exists r, h'. split; [exact Hrun|]. rewrite Hb. simpl.
    apply (f_equal Some), (f_equal (mkArray 3)), (f_equal (fun row => [row])).
    f_equal; [|f_equal; [|f_equal]]; apply Qc_is_canon; vm_compute; reflexivity.
Defined.






End NeutralEntries.

(** ** [load_graph]: what a model that does not load is reported as *)

Lemma split_on_go_cons (sep : string) (k : nat) (s : string) :
  exists h r, split_on_go sep k s = h :: r.
Proof.
  revert k. induction s as [|c s IH]; intros k; [by exists "", []|].
  destruct k as [|k]; simpl; [|apply IH].
  destruct (Str.starts_with sep (String c s)); [by eexists _, _|].
  destruct (IH 0) as (h & r & ->). by eexists _, _.
Qed.

(** The pieces are two or more exactly when the separator occurs. *)
Lemma split_on_second (sep s : string) :
  sep <> "" ->
  is_Some (split_on sep s !! 1) <-> Str.str_in sep s = true.
Proof.
  intros Hsep. unfold split_on. induction s as [|c s IH].
  - simpl. rewrite orb_false_r. split; [by intros [? [=]]|].
    by destruct sep.
  - change (Str.str_in sep (String c s))
      with (Str.starts_with sep (String c s) || Str.str_in sep s).
    change (split_on_go sep 0 (String c s))
      with (if Str.starts_with sep (String c s)
            then "" :: split_on_go sep (String.length sep - 1) s
            else match split_on_go sep 0 s with
                 | [] => [String c ""]
                 | h :: r => String c h :: r
                 end).
    destruct (Str.starts_with sep (String c s)).
    + destruct (split_on_go_cons sep (String.length sep - 1) s) as (h & r & ->).
      simpl. split; [done|]. by exists h.
    + simpl. rewrite <- IH.
      by destruct (split_on_go_cons sep 0 s) as (h & r & ->).
Qed.

(** Where the separator does not occur there is one piece, the string. *)
Lemma split_on_absent (sep s : string) :
  Str.str_in sep s = false -> split_on sep s = [s].
Proof.
  unfold split_on. induction s as [|c s IH]; [done|].
  change (Str.str_in sep (String c s))
    with (Str.starts_with sep (String c s) || Str.str_in sep s).
  intros [Hs Hin]%orb_false_elim.
  change (split_on_go sep 0 (String c s))
    with (if Str.starts_with sep (String c s)
          then "" :: split_on_go sep (String.length sep - 1) s
          else match split_on_go sep 0 s with
               | [] => [String c ""]
               | h :: r => String c h :: r
               end).
  by rewrite Hs, (IH Hin).
Qed.

(** An occurrence of ['Malaya/'] cannot begin in a string that holds none
    and end in an occurrence that follows it: it would need a ['/'] among
    the letters of ['Malaya']. *)
Lemma no_straddle (h rest : string) :
  h <> "" ->
  Str.starts_with "Malaya/" h = false ->
  Str.starts_with "Malaya/" (h +:+ "Malaya/" +:+ rest) = false.
Proof.
  intros Hne Hs.
  destruct h as [|c1 [|c2 [|c3 [|c4 [|c5 [|c6 [|c7 h]]]]]]]; [done|..];
    simpl in *; repeat case_bool_decide; simplify_eq; done.
Qed.

Lemma split_on_malaya_app (home rest : string) :
  Str.str_in "Malaya/" home = false ->
  split_on "Malaya/" (home +:+ "Malaya/" +:+ rest)
  = home :: split_on "Malaya/" rest.
Proof.
  unfold split_on. induction home as [|c home IH]; intros Hin.
  - by destruct rest.
  - change (Str.str_in "Malaya/" (String c home))
      with (Str.starts_with "Malaya/" (String c home) || Str.str_in "Malaya/" home)
      in Hin.
    apply orb_false_elim in Hin as [Hs Hin].
    pose proof (no_straddle (String c home) rest ltac:(done) Hs) as Hn.
    change (String c home +:+ "Malaya/" +:+ rest)
      with (String c (home +:+ "Malaya/" +:+ rest)) in *.
    set (s := home +:+ "Malaya/" +:+ rest) in *.
    change (split_on_go "Malaya/" 0 (String c s))
      with (if Str.starts_with "Malaya/" (String c s)
            then "" :: split_on_go "Malaya/" (String.length "Malaya/" - 1) s
            else match split_on_go "Malaya/" 0 s with
                 | [] => [String c ""]
                 | h :: r => String c h :: r
                 end).
    rewrite Hn. by rewrite (IH Hin).
Qed.

Section LoadGraphProperties.
Variable Graph : Type.
Variable import_graph_def : string -> option Graph.

(** X16. When the model file does not load, [load_graph] reports it with the
    message that names the cache directory only if the file name contains
    ['Malaya/']; for any other file name it raises [IndexError], from
    [split('Malaya/')[1]], and the message is lost.  Whatever the [try]
    block raised is never passed on. *)
Theorem load_graph_failure (frozen_graph_filename : string) :
  import_graph_def frozen_graph_filename = None ->
  (Str.str_in "Malaya/" frozen_graph_filename = false ->
     load_graph Graph import_graph_def frozen_graph_filename = inr IndexError) /\
  (Str.str_in "Malaya/" frozen_graph_filename = true ->
     exists path,
       load_graph Graph import_graph_def frozen_graph_filename
       = inr (Base (Exception
                ("model corrupted due to some reasons, please run malaya.clear_cache('"
                 +:+ path +:+ "') and try again")))).
Proof.
  intros Himp. unfold load_graph. rewrite Himp.
  pose proof (split_on_second "Malaya/" frozen_graph_filename ltac:(done)) as Hsec.
  destruct (split_on "Malaya/" frozen_graph_filename !! 1) as [path|].
  - split; [|by eexists].
    intros Hin. destruct Hsec as [Hsec _].
    rewrite Hsec in Hin; [done|by eexists].
  - split; [done|]. intros Hin. apply Hsec in Hin as [? [=]].
Qed.

(** X17. For a model file [home/Malaya/d/name] that does not load, with
    ['Malaya/'] occurring neither in [home] nor in [d/name], and [name] a
    plain file name, the exception names [d], the directory below the cache
    root that [clear_cache] is to be called with. *)
Theorem load_graph_names_cache_dir (home d name : string) :
  import_graph_def (home +:+ "Malaya/" +:+ d +:+ "/" +:+ name) = None ->
  Str.str_in "Malaya/" home = false ->
  Str.str_in "Malaya/" (d +:+ "/" +:+ name) = false ->
  Str.str_in "/" name = false ->
  load_graph Graph import_graph_def (home +:+ "Malaya/" +:+ d +:+ "/" +:+ name)
  = inr (Base (Exception
           ("model corrupted due to some reasons, please run malaya.clear_cache('"
            +:+ d +:+ "') and try again"))).
Proof.
  intros Himp Hhome Hrest Hname. unfold load_graph. rewrite Himp.
  rewrite (split_on_malaya_app home _ Hhome), (split_on_absent _ _ Hrest).
  change ((home :: [d +:+ "/" +:+ name]) !! 1) with (Some (d +:+ "/" +:+ name)).
  cbv beta iota zeta. by rewrite (named_dir_app d name Hname).
Qed.

End LoadGraphProperties.

Lemma load_graph_failure_witness :
  load_graph unit (fun _ => None) "/tmp/frozen_model.pb" = inr IndexError /\
  exists path,
    load_graph unit (fun _ => None) "/home/u/Malaya/sentiment/bahdanau/frozen_model.pb"
    = inr (Base (Exception
             ("model corrupted due to some reasons, please run malaya.clear_cache('"
              +:+ path +:+ "') and try again"))).
Proof.
  split.
  - apply (proj1 (load_graph_failure unit (fun _ => None) "/tmp/frozen_model.pb"
                    eq_refl)).
    reflexivity.
  - apply (proj2 (load_graph_failure unit (fun _ => None)
                    "/home/u/Malaya/sentiment/bahdanau/frozen_model.pb" eq_refl)).
    reflexivity.
Defined.

Lemma load_graph_names_cache_dir_witness :
  load_graph unit (fun _ => None) "/home/u/Malaya/sentiment/bahdanau/frozen_model.pb"
  = inr (Base (Exception
           "model corrupted due to some reasons, please run malaya.clear_cache('sentiment/bahdanau') and try again")).
Proof.
  apply (load_graph_names_cache_dir unit (fun _ => None)
           "/home/u/" "sentiment/bahdanau" "frozen_model.pb");
    reflexivity.
Defined.
